(** * Cat and user controllers: a shallow embedding and its properties

    The two controller modules [catController.ts] and [userController.ts]
    are embedded as functions from a request, the response locals and a
    world of external services (validator, document database, bcrypt) to
    the list of observable calls a handler makes: database calls,
    [next(err)], [res.json(body)] and console output. *)

From stdpp Require Import gmap strings list fin_maps.
From Stdlib Require Import Ascii String ZArith QArith Lqa DecimalString DecimalN DecimalPos.

Set Warnings "-register-all".
Open Scope string_scope.
Open Scope Z_scope.
Open Scope list_scope.

(** ** JavaScript values *)

(** JSON-like values as the handlers see them.  An object is a finite map
    from property names to values; numbers that the handlers only pass
    along are carried as integers. *)
Inductive Value : Type :=
| VUndef
| VNull
| VBool (b : bool)
| VNum (z : Z)
| VStr (s : string)
| VArr (l : list Value)
| VObj (o : gmap string Value).

(** [o.k] on an object: a missing property reads as [undefined]. *)
Definition get (o : gmap string Value) (k : string) : Value :=
  default VUndef (o !! k).

(** JavaScript truthiness, as used by [!x]. *)
Definition truthy (v : Value) : bool :=
  match v with
  | VUndef | VNull => false
  | VBool b => b
  | VNum z => negb (z =? 0)
  | VStr s => negb (String.eqb s "")
  | VArr _ | VObj _ => true
  end.

(** [v === 'lit'] for a string literal. *)
Definition strict_eq_str (v : Value) (lit : string) : bool :=
  match v with
  | VStr s => String.eqb s lit
  | _ => false
  end.

(** [v.k] where [v] is neither [undefined] nor [null]. *)
Definition field (v : Value) (k : string) : Value :=
  match v with
  | VObj o => get o k
  | _ => VUndef
  end.

(** [Array.prototype.join]: an [undefined] element contributes the empty
    string. *)
Fixpoint join (sep : string) (l : list (option string)) : string :=
  match l with
  | [] => ""
  | [x] => default "" x
  | x :: rest => default "" x +:+ sep +:+ join sep rest
  end.

(** ** Errors *)

(** Modelled from the spec: the [CustomError] class of
    [classes/CustomError], a tagged error with a message and a numeric
    status.  Errors raised by libraries are plain [Error] objects and may
    carry no status. *)
Record Err : Type := { message : string; status : option Z }.

Definition CustomError (msg : string) (code : Z) : Err :=
  {| message := msg; status := Some code |}.

(** The [TypeError] raised by reading a property of [undefined] or
    [null]. *)
Definition TypeError_read (of_ : string) (k : string) : Err :=
  {| message := "Cannot read properties of " +:+ of_ +:+ " (reading '" +:+ k +:+ "')";
     status := None |}.

Inductive Outcome (A : Type) : Type :=
| Throws (e : Err)
| Returns (a : A).
Arguments Throws {A} e.
Arguments Returns {A} a.

(** ** Requests, locals and the validator *)

Record ValidationError : Type := { msg : string; param : string }.

Record File : Type := { filename : string }.

Record QueryString : Type := { topRight : string; bottomLeft : string }.

Record Request : Type := {
  params : gmap string Value;
  query : QueryString;
  body : gmap string Value;
  file : option File;
}.

(** [res.locals]: the authenticated caller and the coordinates derived by
    upstream middleware. *)
Record Locals : Type := { user : Value; coords : Value }.

(** What [validationResult] is applied to: the request, or (in
    [userDeleteCurrent]) its [params] object. *)
Inductive Validated : Type :=
| OfRequest (req : Request)
| OfParams (p : gmap string Value).

(** ** Geometry *)

(** The integer-valued doubles [parseInt] can return: a finite integer
    (always one that a double represents), negative zero, or an
    infinity. *)
Inductive Double : Type :=
| Finite (z : Z)
| NegZero
| Infinite (negative : bool).

(** The result of [parseInt]: a double, or [None] for [NaN]. *)
Definition JsNum : Type := option Double.

Record Coordinates : Type := { lat : JsNum; lng : JsNum }.

(** A polygon ring: the list of its corner points. *)
Definition Polygon : Type := list Coordinates.

(** ** Database calls and observable events *)

Inductive Model : Type := catModel | userModel.

Inductive Filter : Type :=
| NoFilter
| ByOwner (owner : Value)
| LocationGeoWithin (geometry : Polygon).

Inductive Op : Type :=
| Find (f : Filter)
| FindById (id : Value)
| FindByIdAndUpdate (id : Value) (update : Value) (new : bool)
| FindByIdAndDelete (id : Value) (options : option Value)
| Create (doc : Value).

Inductive Chain : Type :=
| Populate (path : string) (fields : option string)
| Select (fields : string).

Record DbCall : Type := { on : Model; op : Op; chain : list Chain }.

Inductive Event : Type :=
| Db (c : DbCall)
| Next (e : Err)
| Json (v : Value)
| Console (e : Err).

(** The services a handler calls and does not implement. *)
Record World : Type := {
  validationResult : Validated -> list ValidationError;
  db : DbCall -> Outcome Value;
  genSaltSync : Z -> string;
  hashSync : Value -> string -> Outcome string;
  compareSync : string -> string -> bool;
}.

(** ** The body of a [try] block: a trace of events and a result or a
    thrown error *)

Definition M (A : Type) : Type := list Event * Outcome A.

#[global] Instance M_ret : MRet M := fun A a => ([], Returns a).

#[global] Instance M_bind : MBind M := fun A B k m =>
  match m with
  | (t, Throws e) => (t, Throws e)
  | (t, Returns a) => let '(t', r) := k a in (t ++ t', r)
  end.

Definition throw {A : Type} (e : Err) : M A := ([], Throws e).

Definition emit (ev : Event) : M unit := ([ev], Returns tt).

Definition lift {A : Type} (o : Outcome A) : M A := ([], o).

(** [v.k], raising a [TypeError] on [undefined] and [null]. *)
Definition prop (v : Value) (k : string) : M Value :=
  match v with
  | VUndef => throw (TypeError_read "undefined" k)
  | VNull => throw (TypeError_read "null" k)
  | _ => mret (field v k)
  end.

(** [try { body } catch (error) { handler }] *)
Definition try_catch (body : M unit) (handler : Err -> list Event) : list Event :=
  match body with
  | (t, Throws e) => t ++ handler e
  | (t, Returns _) => t
  end.

(** ** String helpers of the JavaScript runtime *)

(** [s.split(',')] for a one-character separator. *)
Fixpoint split (sep : ascii) (s : string) : list string :=
  match s with
  | EmptyString => [""]
  | String a rest =>
      if Ascii.eqb a sep then "" :: split sep rest
      else match split sep rest with
           | h :: t => String a h :: t
           | [] => [String a ""]
           end
  end.

(** A string holds the UTF-8 encoding of the JavaScript string. *)
Definition byte (a : ascii) : Z := Z.of_nat (nat_of_ascii a).

(** White space skipped by [parseInt], one byte long: space, tab, line
    feed, vertical tab, form feed, carriage return. *)
Definition is_space (a : ascii) : bool :=
  let n := Z.of_nat (nat_of_ascii a) in
  (n =? 32) || ((9 <=? n) && (n <=? 13)).

(** White space two bytes long: U+00A0. *)
Definition is_space2 (a b : ascii) : bool :=
  (byte a =? 194) && (byte b =? 160).

(** White space three bytes long: U+1680, U+2000 to U+200A, U+2028,
    U+2029, U+202F, U+205F, U+3000 and U+FEFF. *)
Definition is_space3 (a b c : ascii) : bool :=
  ((byte a =? 225) && (byte b =? 154) && (byte c =? 128))
  || ((byte a =? 226) && (byte b =? 128)
      && (((128 <=? byte c) && (byte c <=? 138)) || (byte c =? 168) || (byte c =? 169)
          || (byte c =? 175)))
  || ((byte a =? 226) && (byte b =? 129) && (byte c =? 159))
  || ((byte a =? 227) && (byte b =? 128) && (byte c =? 128))
  || ((byte a =? 239) && (byte b =? 187) && (byte c =? 191)).

Fixpoint trim_start (s : string) : string :=
  match s with
  | String a r1 =>
      if is_space a then trim_start r1
      else match r1 with
           | String b r2 =>
               if is_space2 a b then trim_start r2
               else match r2 with
                    | String c r3 => if is_space3 a b c then trim_start r3 else s
                    | EmptyString => s
                    end
           | EmptyString => s
           end
  | EmptyString => s
  end.

(** The value of a digit in the given radix (10 or 16). *)
Definition digit (radix : Z) (a : ascii) : option Z :=
  let n := Z.of_nat (nat_of_ascii a) in
  let d :=
    if (48 <=? n) && (n <=? 57) then Some (n - 48)
    else if (97 <=? n) && (n <=? 122) then Some (n - 87)
    else if (65 <=? n) && (n <=? 90) then Some (n - 55)
    else None in
  match d with
  | Some v => if v <? radix then Some v else None
  | None => None
  end.

(** The longest prefix of digits, read in the radix; [acc] is [None]
    until a digit has been seen. *)
Fixpoint digits (radix : Z) (s : string) (acc : option Z) : option Z :=
  match s with
  | String a rest =>
      match digit radix a with
      | Some d => digits radix rest (Some (default 0 acc * radix + d))
      | None => acc
      end
  | EmptyString => acc
  end.

(** The optional sign in front of the digits: whether it is a minus, and
    what follows it. *)
Definition strip_sign (s : string) : bool * string :=
  match s with
  | String a rest =>
      if Ascii.eqb a "-" then (true, rest)
      else if Ascii.eqb a "+" then (false, rest)
      else (false, s)
  | EmptyString => (false, s)
  end.

(** The double nearest to the integer [n >= 0] with the given sign, ties
    to the even mantissa of 53 bits; past the largest double, an
    infinity; a zero keeps its sign. *)
Definition to_double (negative : bool) (n : Z) : Double :=
  if n =? 0 then (if negative then NegZero else Finite 0)
  else
    let e := Z.log2 n - 52 in
    let rounded :=
      if e <=? 0 then n
      else
        let q := Z.shiftr n e in
        let r := n - Z.shiftl q e in
        let half := Z.shiftl 1 (e - 1) in
        let q' := if (half <? r) || ((r =? half) && Z.odd q) then q + 1 else q in
        Z.shiftl q' e in
    if Z.shiftl 1 1024 <=? rounded then Infinite negative
    else Finite (if negative then - rounded else rounded).

(** The optional [0x] or [0X] prefix, which selects radix 16. *)
Definition strip_prefix (s : string) : Z * string :=
  match s with
  | String a (String b rest) =>
      if Ascii.eqb a "0" && (Ascii.eqb b "x" || Ascii.eqb b "X") then (16, rest)
      else (10, s)
  | _ => (10, s)
  end.

(** [parseInt(s)] without a radix argument: leading white space, an
    optional sign, an optional [0x] prefix, then digits; [NaN] when no
    digit follows, and otherwise the double nearest to the integer the
    digits denote. *)
Definition parseInt_string (s : string) : JsNum :=
  let '(negative, s) := strip_sign (trim_start s) in
  let '(radix, s) := strip_prefix s in
  to_double negative <$> digits radix s None.

(** [parseInt(x)] where [x] may be [undefined] (a missing element of a
    destructured array), which is first converted to the string
    ["undefined"]. *)
Definition parseInt (x : option string) : JsNum :=
  parseInt_string (default "undefined" x).

(** Modelled from the spec: the helper [utils/rectangleBounds], which
    given two opposite corners returns a closed polygon covering the
    rectangle they define, the four corners in a consistent winding order.
    The ring starts and ends at the bottom-left corner. *)
Definition rectangleBounds (topRight bottomLeft : Coordinates) : Polygon :=
  [ {| lat := lat bottomLeft; lng := lng bottomLeft |};
    {| lat := lat topRight; lng := lng bottomLeft |};
    {| lat := lat topRight; lng := lng topRight |};
    {| lat := lat bottomLeft; lng := lng topRight |};
    {| lat := lat bottomLeft; lng := lng bottomLeft |} ].

(** ** The handlers *)

(** The template literal of the validation gate. *)
Definition render (error : ValidationError) : string :=
  msg error +:+ ": " +:+ param error.

(** [{message: m, data: v}] *)
Definition envelope (m : string) (v : Value) : Value :=
  VObj (<["message" := VStr m]> {["data" := v]}).

(** [{_id: v._id, user_name: v.user_name, email: v.email}] *)
Definition userOutput (_id user_name email : Value) : Value :=
  VObj (<["_id" := _id]> (<["user_name" := user_name]> {["email" := email]})).

(** The catch block shared by most handlers. *)
Definition catch_500 (error : Err) : list Event :=
  [Next (CustomError (message error) 500)].

(** The same catch block preceded by [console.error(error)] (or
    [console.log(error)]). *)
Definition catch_log_500 (error : Err) : list Event :=
  [Console error; Next (CustomError (message error) 500)].

(** The catch block of [userDeleteCurrent]: [console.error(error);
    next(error)]. *)
Definition catch_log_forward (error : Err) : list Event :=
  [Console error; Next error].

Section Handlers.

Variable w : World.

(** [await model.op(...).chain] *)
Definition await (c : DbCall) : M Value := ([Db c], db w c).

(** The validation gate at the head of a handler. *)
Definition validate (target : Validated) : M unit :=
  let errors := validationResult w target in
  match errors with
  | [] => mret tt
  | _ => throw (CustomError (join ", " (map (fun error => Some (render error)) errors)) 400)
  end.

(** The gate as written in [userDeleteCurrent]: the arrow function has a
    block body without [return], so every element maps to
    [undefined]. *)
Definition validate_no_return (target : Validated) : M unit :=
  let errors := validationResult w target in
  match errors with
  | [] => mret tt
  | _ => throw (CustomError (join ", " (map (fun error => None) errors)) 400)
  end.

(** [if (!x) { next(new CustomError(m, 404)); return; }] followed by
    [res.json(out)]. *)
Definition found_or_404 (x : Value) (m : string) (out : Value) : M unit :=
  if truthy x then emit (Json out) else emit (Next (CustomError m 404)).

Definition catGetByUser_body (req : Request) (res : Locals) : M unit :=
  validate (OfRequest req);;
  owner ← prop (user res) "_id";
  cats ← await {| on := catModel; op := Find (ByOwner owner); chain := [] |};
  found_or_404 cats "No cats found" cats.

Definition catGetByUser (req : Request) (res : Locals) : list Event :=
  try_catch (catGetByUser_body req res) catch_500.

(** The two corners handed to [rectangleBounds]. *)
Definition boundingBoxCorners (q : QueryString) : Coordinates * Coordinates :=
  let tr := split "," (topRight q) in
  let bl := split "," (bottomLeft q) in
  let topRightLat := tr !! 0%nat in
  let topRightLng := tr !! 1%nat in
  let bottomLeftLat := bl !! 0%nat in
  let bottomLeftLng := bl !! 1%nat in
  ({| lng := parseInt topRightLat; lat := parseInt topRightLng |},
   {| lat := parseInt bottomLeftLat; lng := parseInt bottomLeftLng |}).

Definition catGetByBoundingBox_body (req : Request) (res : Locals) : M unit :=
  validate (OfRequest req);;
  let '(tr, bl) := boundingBoxCorners (query req) in
  let rectBounds := rectangleBounds tr bl in
  cats ← await {| on := catModel; op := Find (LocationGeoWithin rectBounds); chain := [] |};
  found_or_404 cats "No cats found" cats.

Definition catGetByBoundingBox (req : Request) (res : Locals) : list Event :=
  try_catch (catGetByBoundingBox_body req res) catch_500.

Definition catPutAdmin_body (req : Request) (res : Locals) : M unit :=
  validate (OfRequest req);;
  role ← prop (user res) "role";
  if strict_eq_str role "admin" then
    cat ← await {| on := catModel;
                   op := FindByIdAndUpdate (get (params req) "id") (VObj (body req)) true;
                   chain := [] |};
    found_or_404 cat "Cat not found" (envelope "Cat updated" cat)
  else mret tt.

Definition catPutAdmin (req : Request) (res : Locals) : list Event :=
  try_catch (catPutAdmin_body req res) catch_log_500.

Definition catDeleteAdmin_body (req : Request) (res : Locals) : M unit :=
  validate (OfRequest req);;
  role ← prop (user res) "role";
  if strict_eq_str role "admin" then
    cat ← await {| on := catModel;
                   op := FindByIdAndDelete (get (params req) "id") None;
                   chain := [Populate "owner" None] |};
    found_or_404 cat "No cat found" (envelope "Cat deleted" cat)
  else mret tt.

Definition catDeleteAdmin (req : Request) (res : Locals) : list Event :=
  try_catch (catDeleteAdmin_body req res) catch_500.

Definition catDelete_body (req : Request) (res : Locals) : M unit :=
  validate (OfRequest req);;
  cat ← await {| on := catModel;
                 op := FindByIdAndDelete (get (params req) "id") None;
                 chain := [] |};
  found_or_404 cat "No cat found" (envelope "Cat deleted" cat).

Definition catDelete (req : Request) (res : Locals) : list Event :=
  try_catch (catDelete_body req res) catch_500.

Definition catPut_body (req : Request) (res : Locals) : M unit :=
  validate (OfRequest req);;
  cat ← await {| on := catModel;
                 op := FindByIdAndUpdate (get (params req) "id") (VObj (body req)) true;
                 chain := [] |};
  found_or_404 cat "Cat not found" (envelope "Cat updated" cat).

Definition catPut (req : Request) (res : Locals) : list Event :=
  try_catch (catPut_body req res) catch_500.

Definition catGet_body (req : Request) (res : Locals) : M unit :=
  validate (OfRequest req);;
  cat ← await {| on := catModel;
                 op := FindById (get (params req) "id");
                 chain := [Populate "owner" (Some "user_name email")] |};
  found_or_404 cat "No cat found" cat.

Definition catGet (req : Request) (res : Locals) : list Event :=
  try_catch (catGet_body req res) catch_500.

Definition catListGet_body (req : Request) (res : Locals) : M unit :=
  cats ← await {| on := catModel;
                  op := Find NoFilter;
                  chain := [Populate "owner" (Some "user_name email")] |};
  found_or_404 cats "No cats found" cats.

Definition catListGet (req : Request) (res : Locals) : list Event :=
  try_catch (catListGet_body req res) catch_500.

(** The document [catPost] hands to [catModel.create]: the request body
    after the three assignments. *)
Definition catPost_doc (req : Request) (res : Locals) (owner : Value) (f : File) :
    gmap string Value :=
  <["filename" := VStr (filename f)]>
    (<["owner" := owner]> (<["location" := coords res]> (body req))).

Definition catPost_body (req : Request) (res : Locals) : M unit :=
  validate (OfRequest req);;
  match file req with
  | None => throw (CustomError "File not found" 400)
  | Some f =>
      owner ← prop (user res) "_id";
      cat ← await {| on := catModel;
                     op := Create (VObj (catPost_doc req res owner f));
                     chain := [] |};
      emit (Json (envelope "Cat created" cat))
  end.

Definition catPost (req : Request) (res : Locals) : list Event :=
  try_catch (catPost_body req res) catch_log_500.

Definition userGet_body (req : Request) (res : Locals) : M unit :=
  validate (OfRequest req);;
  user ← await {| on := userModel;
                  op := FindById (get (params req) "id");
                  chain := [Select "_id user_name email"] |};
  emit (Json user).

Definition userGet (req : Request) (res : Locals) : list Event :=
  try_catch (userGet_body req res) catch_500.

Definition userListGet_body (req : Request) (res : Locals) : M unit :=
  users ← await {| on := userModel;
                   op := Find NoFilter;
                   chain := [Select "-password -role"] |};
  (if truthy users then mret tt
   else emit (Next (CustomError "No users found" 404)));;
  emit (Json users).

Definition userListGet (req : Request) (res : Locals) : list Event :=
  try_catch (userListGet_body req res) catch_500.

(** The document [userPost] hands to [userModel.create]:
    [{...req.body, role: 'user'}] after [req.body.password] has been
    overwritten with the hash. *)
Definition userPost_doc (req : Request) (hash : string) : gmap string Value :=
  <["role" := VStr "user"]> (<["password" := VStr hash]> (body req)).

Definition userPost_body (req : Request) (res : Locals) : M unit :=
  validate (OfRequest req);;
  let password := get (body req) "password" in
  let salt := genSaltSync w 12 in
  hash ← lift (hashSync w password salt);
  user ← await {| on := userModel;
                  op := Create (VObj (userPost_doc req hash));
                  chain := [] |};
  _id ← prop user "_id";
  user_name ← prop user "user_name";
  email ← prop user "email";
  emit (Json (envelope "User created" (userOutput _id user_name email))).

Definition userPost (req : Request) (res : Locals) : list Event :=
  try_catch (userPost_body req res) catch_log_500.

Definition userPutCurrent_body (req : Request) (res : Locals) : M unit :=
  validate (OfRequest req);;
  id ← prop (user res) "_id";
  user ← await {| on := userModel;
                  op := FindByIdAndUpdate id (VObj (body req)) true;
                  chain := [] |};
  found_or_404 user "Not found"
    (envelope "User modified"
       (userOutput (field user "_id") (field user "user_name") (field user "email"))).

Definition userPutCurrent (req : Request) (res : Locals) : list Event :=
  try_catch (userPutCurrent_body req res) catch_log_500.

Definition userDeleteCurrent_body (req : Request) (res : Locals) : M unit :=
  validate_no_return (OfParams (params req));;
  id ← prop (user res) "_id";
  deleted ← await {| on := userModel;
                     op := FindByIdAndDelete id (Some (VObj (body req)));
                     chain := [] |};
  found_or_404 deleted "User not found"
    (envelope "User deleted"
       (userOutput (field (user res) "_id") (field (user res) "user_name")
          (field (user res) "email"))).

Definition userDeleteCurrent (req : Request) (res : Locals) : list Event :=
  try_catch (userDeleteCurrent_body req res) catch_log_forward.

(** [checkToken] has no [try] block and makes no call that can throw. *)
Definition checkToken (req : Request) (res : Locals) : list Event :=
  if negb (truthy (user res)) then [Next (CustomError "Token is not valid" 403)]
  else
    let newUser := user res in
    [Json (userOutput (field newUser "_id") (field newUser "user_name")
             (field newUser "email"))].

End Handlers.

(** ** All handlers at once *)

Inductive Handler : Type :=
| CatGetByUser | CatGetByBoundingBox | CatPutAdmin | CatDeleteAdmin
| CatDelete | CatPut | CatGet | CatListGet | CatPost
| UserGet | UserListGet | UserPost | UserPutCurrent | UserDeleteCurrent
| CheckToken.

(** The body of the handler's [try] block; [None] for [checkToken], which
    has none. *)
Definition try_body (h : Handler) (w : World) (req : Request) (res : Locals) :
    option (M unit) :=
  match h with
  | CatGetByUser => Some (catGetByUser_body w req res)
  | CatGetByBoundingBox => Some (catGetByBoundingBox_body w req res)
  | CatPutAdmin => Some (catPutAdmin_body w req res)
  | CatDeleteAdmin => Some (catDeleteAdmin_body w req res)
  | CatDelete => Some (catDelete_body w req res)
  | CatPut => Some (catPut_body w req res)
  | CatGet => Some (catGet_body w req res)
  | CatListGet => Some (catListGet_body w req res)
  | CatPost => Some (catPost_body w req res)
  | UserGet => Some (userGet_body w req res)
  | UserListGet => Some (userListGet_body w req res)
  | UserPost => Some (userPost_body w req res)
  | UserPutCurrent => Some (userPutCurrent_body w req res)
  | UserDeleteCurrent => Some (userDeleteCurrent_body w req res)
  | CheckToken => None
  end.

Definition run (h : Handler) (w : World) (req : Request) (res : Locals) : list Event :=
  match h with
  | CatGetByUser => catGetByUser w req res
  | CatGetByBoundingBox => catGetByBoundingBox w req res
  | CatPutAdmin => catPutAdmin w req res
  | CatDeleteAdmin => catDeleteAdmin w req res
  | CatDelete => catDelete w req res
  | CatPut => catPut w req res
  | CatGet => catGet w req res
  | CatListGet => catListGet w req res
  | CatPost => catPost w req res
  | UserGet => userGet w req res
  | UserListGet => userListGet w req res
  | UserPost => userPost w req res
  | UserPutCurrent => userPutCurrent w req res
  | UserDeleteCurrent => userDeleteCurrent w req res
  | CheckToken => checkToken req res
  end.

(** The handlers that start with the validation gate applied to the
    request. *)
Definition validates_request (h : Handler) : bool :=
  match h with
  | CatListGet | UserListGet | CheckToken | UserDeleteCurrent => false
  | _ => true
  end.

(** Whether a trace contains a database call. *)
Definition is_db (ev : Event) : bool :=
  match ev with Db _ => true | _ => false end.

Definition touches_db (t : list Event) : bool := existsb is_db t.

(** The errors handed to [next] and the bodies handed to [res.json]. *)
Definition forwarded (t : list Event) : list Err :=
  omap (fun ev => match ev with Next e => Some e | _ => None end) t.

Definition responses (t : list Event) : list Value :=
  omap (fun ev => match ev with Json v => Some v | _ => None end) t.

Definition db_calls (t : list Event) : list DbCall :=
  omap (fun ev => match ev with Db c => Some c | _ => None end) t.

(** ** The geometry query of the database *)

(** A stored location, in degrees. *)
Record Location : Type := { latitude : Q; longitude : Q }.

(** The integer a finite double stands for. *)
Definition finite (d : Double) : option Z :=
  match d with
  | Finite z => Some z
  | NegZero => Some 0
  | Infinite _ => None
  end.

Definition vertex (c : Coordinates) : option Location :=
  match lat c ≫= finite, lng c ≫= finite with
  | Some a, Some b => Some {| latitude := inject_Z a; longitude := inject_Z b |}
  | _, _ => None
  end.

(** The corners of a ring as locations; [None] when a coordinate is
    [NaN] or infinite. *)
Definition ring_vertices (g : Polygon) : option (list Location) := mapM vertex g.

Definition Qltb (a b : Q) : bool := negb (Qle_bool b a).

Definition between (u v t : Q) : bool :=
  (Qle_bool u t && Qle_bool t v) || (Qle_bool v t && Qle_bool t u).

(** Twice the signed area of the triangle [a b p]: positive when [p] is to
    the left of the directed edge from [a] to [b]. *)
Definition is_left (a b p : Location) : Q :=
  ((longitude b - longitude a) * (latitude p - latitude a)
   - (longitude p - longitude a) * (latitude b - latitude a))%Q.

Definition on_edge (a b p : Location) : bool :=
  Qeq_bool (is_left a b p) 0
  && between (longitude a) (longitude b) (longitude p)
  && between (latitude a) (latitude b) (latitude p).

(** The contribution of the edge from [a] to [b] to the winding number of
    the ring around [p]. *)
Definition crossing (a b p : Location) : Z :=
  if Qle_bool (latitude a) (latitude p) then
    if Qltb (latitude p) (latitude b) && Qltb 0 (is_left a b p) then 1 else 0
  else
    if Qle_bool (latitude b) (latitude p) && Qltb (is_left a b p) 0 then -1 else 0.

Fixpoint edges (vs : list Location) : list (Location * Location) :=
  match vs with
  | a :: rest => match rest with
                 | b :: _ => (a, b) :: edges rest
                 | [] => []
                 end
  | [] => []
  end.

Definition winding (vs : list Location) (p : Location) : Z :=
  fold_right (fun e n => crossing (fst e) (snd e) p + n) 0 (edges vs).

Definition on_boundary (vs : list Location) (p : Location) : bool :=
  existsb (fun e => on_edge (fst e) (snd e) p) (edges vs).

(** Modelled from the spec: the geometry query of the document database,
    which selects the records whose location falls within the polygon.  A
    location is within a closed ring when it lies on one of its edges or
    the ring winds around it. *)
Definition within (vs : list Location) (p : Location) : bool :=
  on_boundary vs p || negb (winding vs p =? 0).

(** A stored cat: its location and the document the query returns for
    it. *)
Definition StoredCat : Type := Location * Value.

(** Modelled from the spec: what the cat collection answers to the
    bounding-box query, for a ring with numeric corners. *)
Definition geoWithin_answers (w : World) (cats : list StoredCat) : Prop :=
  forall (g : Polygon) (vs : list Location),
    ring_vertices g = Some vs ->
    db w {| on := catModel; op := Find (LocationGeoWithin g); chain := [] |}
    = Returns (VArr (map snd (List.filter (fun c => within vs (fst c)) cats))).

(** The closed axis-aligned rectangle with the given opposite corners. *)
Definition in_rectangle (lat0 lng0 lat1 lng1 : Q) (p : Location) : bool :=
  Qle_bool lat0 (latitude p) && Qle_bool (latitude p) lat1
  && Qle_bool lng0 (longitude p) && Qle_bool (longitude p) lng1.

(** ** The contract of the password hashing library *)

(** Modelled from the spec: the stored value differs from the input and
    verifies against it via the hashing function's check. *)
Definition bcrypt_contract (w : World) : Prop :=
  forall (password salt hash : string),
    hashSync w (VStr password) salt = Returns hash ->
    hash <> password /\ compareSync w password hash = true.

(** ** Sample worlds and requests *)

(** A stand-in for bcrypt that satisfies [bcrypt_contract]. *)
Definition toy_hashSync (v : Value) (salt : string) : Outcome string :=
  match v with
  | VStr password => Returns (String "$" password)
  | _ => Throws {| message := "Illegal arguments"; status := None |}
  end.

Definition toy_compareSync (password hash : string) : bool :=
  String.eqb hash (String "$" password).

(** A world whose validator reports [errors] for every request and whose
    database answers by [answer]. *)
Definition world_of (errors : list ValidationError) (answer : DbCall -> Outcome Value) : World :=
  {| validationResult := fun _ => errors;
     db := answer;
     genSaltSync := fun rounds => "$2a$12$saltsaltsaltsaltsalt";
     hashSync := toy_hashSync;
     compareSync := toy_compareSync |}.

Definition sample_errors : list ValidationError :=
  [ {| msg := "Invalid value"; param := "id" |};
    {| msg := "Invalid value"; param := "cat_name" |} ].

Definition sample_caller : Value :=
  VObj (<["_id" := VStr "u1"]> (<["user_name" := VStr "ann"]>
       (<["email" := VStr "ann@example.org"]> {["role" := VStr "user"]}))).

Definition sample_locals : Locals :=
  {| user := sample_caller; coords := VArr [VNum 60; VNum 24] |}.

Definition sample_request (b : gmap string Value) (f : option File) : Request :=
  {| params := {["id" := VStr "c1"]};
     query := {| topRight := "10,10"; bottomLeft := "0,0" |};
     body := b;
     file := f |}.

(** A database that is down. *)
Definition db_down : DbCall -> Outcome Value :=
  fun _ => Throws {| message := "connection lost"; status := None |}.

(** A database that finds nothing. *)
Definition db_null : DbCall -> Outcome Value := fun _ => Returns VNull.

(** A database that echoes the document of a [create] with an identity
    added, and answers every other call with the given record. *)
Definition db_echo (found : Value) : DbCall -> Outcome Value :=
  fun c => match op c with
           | Create (VObj doc) => Returns (VObj (<["_id" := VStr "new1"]> doc))
           | _ => Returns found
           end.

Definition sample_cats : list StoredCat :=
  [ ({| latitude := 5; longitude := 5 |}, VStr "inside");
    ({| latitude := 10; longitude := 0 |}, VStr "corner");
    ({| latitude := 21 # 2; longitude := 5 |}, VStr "north");
    ({| latitude := 5; longitude := -1 # 10 |}, VStr "west") ].

(** A database holding [cats] that answers the bounding-box query by
    [within]. *)
Definition db_geo (cats : list StoredCat) : DbCall -> Outcome Value :=
  fun c => match on c, op c, chain c with
           | catModel, Find (LocationGeoWithin g), [] =>
               match ring_vertices g with
               | Some vs => Returns (VArr (map snd (List.filter (fun c => within vs (fst c)) cats)))
               | None => Throws {| message := "Point must only contain numeric elements";
                                   status := None |}
               end
           | _, _, _ => Returns VNull
           end.

(** The corners of the rectangle between (0,0) and (10,10), as the ring
    [rectangleBounds] builds it. *)
Definition square : list Location :=
  [ {| latitude := 0; longitude := 0 |};
    {| latitude := 10; longitude := 0 |};
    {| latitude := 10; longitude := 10 |};
    {| latitude := 0; longitude := 10 |};
    {| latitude := 0; longitude := 0 |} ].

(** The call [catGetByBoundingBox] makes for a given query string. *)
Definition boundingBoxCall (q : QueryString) : DbCall :=
  {| on := catModel;
     op := Find (LocationGeoWithin
                   (rectangleBounds (fst (boundingBoxCorners q)) (snd (boundingBoxCorners q))));
     chain := [] |}.

(** ** Tables read off the handlers *)

(** The collection a handler works on; [checkToken] works on none. *)
Definition model_of (h : Handler) : option Model :=
  match h with
  | CatGetByUser | CatGetByBoundingBox | CatPutAdmin | CatDeleteAdmin
  | CatDelete | CatPut | CatGet | CatListGet | CatPost => Some catModel
  | UserGet | UserListGet | UserPost | UserPutCurrent | UserDeleteCurrent => Some userModel
  | CheckToken => None
  end.

(** The operations that only read the collection. *)
Definition reads_only (o : Op) : bool :=
  match o with
  | Find _ | FindById _ => true
  | _ => false
  end.

(** The handlers behind the read routes. *)
Definition read_handler (h : Handler) : bool :=
  match h with
  | CatGetByUser | CatGetByBoundingBox | CatGet | CatListGet
  | UserGet | UserListGet | CheckToken => true
  | _ => false
  end.

(** The message of the handler's not-found check, for the handlers that
    have one. *)
Definition not_found_message (h : Handler) : option string :=
  match h with
  | CatGetByUser | CatGetByBoundingBox | CatListGet => Some "No cats found"
  | CatPutAdmin | CatPut => Some "Cat not found"
  | CatDeleteAdmin | CatDelete | CatGet => Some "No cat found"
  | UserListGet => Some "No users found"
  | UserPutCurrent => Some "Not found"
  | UserDeleteCurrent => Some "User not found"
  | CatPost | UserGet | UserPost | CheckToken => None
  end.

(** What the handler's validation gate is applied to, for the handlers
    that have one. *)
Definition gate_target (h : Handler) (req : Request) : option Validated :=
  match h with
  | CatListGet | UserListGet | CheckToken => None
  | UserDeleteCurrent => Some (OfParams (params req))
  | _ => Some (OfRequest req)
  end.

(** The handlers that read [res.locals]. *)
Definition reads_locals (h : Handler) : bool :=
  match h with
  | CatGetByUser | CatPutAdmin | CatDeleteAdmin | CatPost
  | UserPutCurrent | UserDeleteCurrent | CheckToken => true
  | _ => false
  end.

(** The number of times a run answers the request: responses sent plus
    errors forwarded. *)
Definition answers (t : list Event) : nat :=
  (List.length (responses t) + List.length (forwarded t))%nat.

(** Whether a string holds the character. *)
Fixpoint contains (c : ascii) (s : string) : bool :=
  match s with
  | String a rest => Ascii.eqb a c || contains c rest
  | EmptyString => false
  end.

(** A world that differs from [w] in the hashing library only. *)
Definition with_bcrypt (w : World) (salt : Z -> string)
    (hash : Value -> string -> Outcome string) (compare : string -> string -> bool) : World :=
  {| validationResult := validationResult w;
     db := db w;
     genSaltSync := salt;
     hashSync := hash;
     compareSync := compare |}.

(** An administrator as caller. *)
Definition admin_caller : gmap string Value :=
  <["_id" := VStr "a1"]> (<["user_name" := VStr "root"]>
    (<["email" := VStr "root@example.org"]> {["role" := VStr "admin"]})).

Definition admin_locals : Locals :=
  {| user := VObj admin_caller; coords := VArr [VNum 60; VNum 24] |}.

(** A database whose every query succeeds with the given record. *)
Definition db_found (record : Value) : DbCall -> Outcome Value := fun _ => Returns record.

(** The handlers that send the database's answer as it is, bare or as the
    data of an envelope: all cat handlers, [userGet] and [userListGet]. *)
Definition passes_record_on (h : Handler) : bool :=
  match h with
  | UserPost | UserPutCurrent | UserDeleteCurrent | CheckToken => false
  | _ => true
  end.

(** ** Decimal numerals *)

(** The decimal numeral of a natural number with an optional minus sign
    in front, as [String(n)] writes it. *)
Definition numeral (negative : bool) (n : N) : string :=
  (if negative then "-" else "") +:+ NilEmpty.string_of_uint (N.to_uint n).

(** The decimal numeral of an integer. *)
Definition decimal (z : Z) : string := numeral (z <? 0) (Z.abs_N z).

(** A coordinate as a client writes it: the numeral of its integer part
    and, optionally, a decimal point and further text. *)
Definition coordinate (z : Z) (fraction : option string) : string :=
  decimal z +:+ match fraction with
                | Some f => "." +:+ f
                | None => ""
                end.

(** Whether the text after the decimal point holds no comma. *)
Definition comma_free (fraction : option string) : bool :=
  match fraction with
  | Some f => negb (contains "," f)
  | None => true
  end.

(** The ring around the rectangle between two corners. *)
Definition rectangle_ring (lat0 lng0 lat1 lng1 : Q) : list Location :=
  [ {| latitude := lat0; longitude := lng0 |};
    {| latitude := lat1; longitude := lng0 |};
    {| latitude := lat1; longitude := lng1 |};
    {| latitude := lat0; longitude := lng1 |};
    {| latitude := lat0; longitude := lng0 |} ].

(** A world whose validator, like [validationResult] of express-validator,
    finds a report only on a request: applied to any other object, such as
    [req.params], it reports nothing. *)
Definition request_validating_world (errors : list ValidationError)
    (answer : DbCall -> Outcome Value) : World :=
  {| validationResult := fun target => match target with
                                       | OfRequest _ => errors
                                       | OfParams _ => []
                                       end;
     db := answer;
     genSaltSync := fun rounds => "$2a$12$saltsaltsaltsaltsalt";
     hashSync := toy_hashSync;
     compareSync := toy_compareSync |}.

(** * Properties *)

(** ** The monad of a [try] block *)

Lemma bind_ret {A B : Type} (a : A) (k : A -> M B) : mret a ≫= k = k a.
Proof. unfold mret, M_ret, mbind, M_bind. destruct (k a) as [t r]. reflexivity. Qed.

Lemma bind_throw {A B : Type} (e : Err) (k : A -> M B) : throw e ≫= k = throw e.
Proof. reflexivity. Qed.

Lemma bind_lift_returns {A B : Type} (a : A) (k : A -> M B) : lift (Returns a) ≫= k = k a.
Proof. apply (bind_ret a k). Qed.

Lemma bind_lift_throws {A B : Type} (e : Err) (k : A -> M B) :
  lift (Throws e) ≫= k = throw e.
Proof. reflexivity. Qed.

Lemma bind_await_returns {B : Type} (w : World) (c : DbCall) (v : Value) (k : Value -> M B) :
  db w c = Returns v ->
  await w c ≫= k = (Db c :: fst (k v), snd (k v)).
Proof.
  intros H. unfold await, mbind, M_bind. rewrite H. destruct (k v) as [t r]. reflexivity.
Qed.

Lemma bind_await_throws {B : Type} (w : World) (c : DbCall) (e : Err) (k : Value -> M B) :
  db w c = Throws e ->
  await w c ≫= k = ([Db c], Throws e).
Proof. intros H. unfold await, mbind, M_bind. rewrite H. reflexivity. Qed.

Lemma prop_object (o : gmap string Value) (k : string) : prop (VObj o) k = mret (get o k).
Proof. reflexivity. Qed.

(** ** The validation gate *)

Lemma validate_passes (w : World) (target : Validated) :
  validationResult w target = [] -> validate w target = mret tt.
Proof. intros H. unfold validate. rewrite H. reflexivity. Qed.

Lemma validate_fails (w : World) (target : Validated) :
  validationResult w target <> [] ->
  validate w target
  = throw (CustomError
             (join ", " (map (fun error => Some (render error)) (validationResult w target)))
             400).
Proof.
  intros H. unfold validate. destruct (validationResult w target); [contradiction | reflexivity].
Qed.

(** Unfolds a handler down to its validation gate. *)
Ltac unfold_handler :=
  unfold run, try_body,
    catGetByUser, catGetByUser_body, catGetByBoundingBox, catGetByBoundingBox_body,
    catPutAdmin, catPutAdmin_body, catDeleteAdmin, catDeleteAdmin_body,
    catDelete, catDelete_body, catPut, catPut_body, catGet, catGet_body,
    catListGet, catListGet_body, catPost, catPost_body,
    userGet, userGet_body, userListGet, userListGet_body, userPost, userPost_body,
    userPutCurrent, userPutCurrent_body, userDeleteCurrent, userDeleteCurrent_body,
    checkToken.

(** Every handler that applies the gate to the request answers a failed
    validation by forwarding the joined message with status 500, the
    status its catch block assigns, and calls nothing else but the
    console. *)
Lemma validation_failure_trace (h : Handler) (w : World) (req : Request) (res : Locals) :
  validates_request h = true ->
  validationResult w (OfRequest req) <> [] ->
  let messages :=
    join ", " (map (fun error => Some (render error)) (validationResult w (OfRequest req))) in
  run h w req res = catch_500 (CustomError messages 400)
  \/ run h w req res = catch_log_500 (CustomError messages 400).
Proof.
  intros Hv Hne messages.
  destruct h; try discriminate Hv; unfold_handler;
    rewrite (validate_fails _ _ Hne); rewrite bind_throw; simpl; auto.
Qed.

Lemma validation_failure_no_db (h : Handler) (w : World) (req : Request) (res : Locals) :
  validates_request h = true ->
  validationResult w (OfRequest req) <> [] ->
  touches_db (run h w req res) = false
  /\ responses (run h w req res) = []
  /\ forwarded (run h w req res)
     = [CustomError
          (join ", " (map (fun error => Some (render error)) (validationResult w (OfRequest req))))
          500].
Proof.
  intros Hv Hne.
  destruct (validation_failure_trace h w req res Hv Hne) as [-> | ->]; simpl; auto.
Qed.

(** One segment per failure, in the validator's order: the joined message
    of a non-empty report adds the next segment in front. *)
Lemma join_cons (sep : string) (x y : option string) (rest : list (option string)) :
  join sep (x :: y :: rest) = default "" x +:+ sep +:+ join sep (y :: rest).
Proof. reflexivity. Qed.

(** C1: a request that fails field validation is answered with status 400.
    Evaluated on [catGetByUser] with two failing fields, the handler makes
    no database call but forwards the joined message with status 500: the
    [CustomError] with status 400 is thrown inside the handler's own [try]
    and rewritten by its catch block. *)
Theorem C1_validation_failure_forwarded_as_500 :
  run CatGetByUser (world_of sample_errors db_null) (sample_request ∅ None) sample_locals
  = [Next (CustomError "Invalid value: id, Invalid value: cat_name" 500)].
Proof. reflexivity. Qed.

(** ** The catch blocks *)

Lemma last_catch_500 (t : list Event) (e : Err) :
  last (t ++ catch_500 e) = Some (Next (CustomError (message e) 500)).
Proof. unfold catch_500. apply last_snoc. Qed.

Lemma last_catch_log_500 (t : list Event) (e : Err) :
  last (t ++ catch_log_500 e) = Some (Next (CustomError (message e) 500)).
Proof.
  unfold catch_log_500.
  change [Console e; Next (CustomError (message e) 500)]
    with ([Console e] ++ [Next (CustomError (message e) 500)]).
  rewrite app_assoc. apply last_snoc.
Qed.

Lemma last_catch_log_forward (t : list Event) (e : Err) :
  last (t ++ catch_log_forward e) = Some (Next e).
Proof.
  unfold catch_log_forward.
  change [Console e; Next e] with ([Console e] ++ [Next e]).
  rewrite app_assoc. apply last_snoc.
Qed.

Lemma try_catch_throws (t : list Event) (e : Err) (handler : Err -> list Event) :
  try_catch (t, Throws e) handler = t ++ handler e.
Proof. reflexivity. Qed.

(** Not every catch block rewrites the thrown error to status 500: when
    the database call of [userDeleteCurrent] throws, what [next] receives
    is not an error with status 500. *)
Lemma not_every_catch_rewrites_to_500 :
  ~ (forall (h : Handler) (w : World) (req : Request) (res : Locals)
            (t : list Event) (e : Err),
        try_body h w req res = Some (t, Throws e) ->
        exists e' : Err,
          last (run h w req res) = Some (Next e') /\ status e' = Some 500).
Proof.
  intros claim.
  destruct (claim UserDeleteCurrent (world_of [] db_down) (sample_request ∅ None)
              sample_locals _ _ eq_refl) as (e' & Hlast & Hstatus).
  vm_compute in Hlast. injection Hlast as <-. discriminate Hstatus.
Qed.

(** In every handler other than [userDeleteCurrent], an error thrown
    inside the [try] block is forwarded by the catch block as an error
    with the thrown message and status 500, whatever status it carried;
    the catch block of [userDeleteCurrent] forwards the thrown error
    unchanged. *)
Lemma catch_block_rewrites_to_500 (h : Handler) (w : World) (req : Request) (res : Locals)
    (t : list Event) (e : Err) :
  try_body h w req res = Some (t, Throws e) ->
  (h <> UserDeleteCurrent ->
   last (run h w req res) = Some (Next (CustomError (message e) 500)))
  /\ (h = UserDeleteCurrent -> last (run h w req res) = Some (Next e)).
Proof.
  intros Hbody.
  destruct h; simpl in Hbody; try discriminate Hbody;
    injection Hbody as Hbody; (split; [intros Hne | intros Heq]);
    try congruence; try discriminate Heq;
    unfold run, catGetByUser, catGetByBoundingBox, catPutAdmin, catDeleteAdmin, catDelete,
      catPut, catGet, catListGet, catPost, userGet, userListGet, userPost, userPutCurrent,
      userDeleteCurrent;
    rewrite Hbody, try_catch_throws;
    first [ apply last_catch_500 | apply last_catch_log_500 | apply last_catch_log_forward ].
Qed.

(** C2: every handler's catch block rewrites an error thrown inside the
    [try] block to an error with status 500.  Evaluated on
    [userDeleteCurrent] with the database call throwing: its catch block,
    alone among the handlers, is [console.error(error); next(error)], so
    [next] receives the thrown error itself, here one without any
    status. *)
Theorem C2_delete_current_forwards_thrown_error :
  run UserDeleteCurrent (world_of [] db_down) (sample_request ∅ None) sample_locals
  = [ Db {| on := userModel;
            op := FindByIdAndDelete (VStr "u1") (Some (VObj ∅));
            chain := [] |};
      Console {| message := "connection lost"; status := None |};
      Next {| message := "connection lost"; status := None |} ].
Proof. reflexivity. Qed.

(** ** The joined validation message *)

(** The message built by [userDeleteCurrent] keeps the separators and
    drops every segment. *)
Lemma join_undefined (sep : string) (A : Type) (x : A) (rest : list A) :
  join sep (map (fun _ => None) (x :: rest))
  = fold_right (fun _ acc => sep +:+ acc) "" rest.
Proof.
  revert x. induction rest as [| y rest IH]; intros x; [reflexivity |].
  cbn [map]. rewrite join_cons. cbn [map] in IH. rewrite (IH y). reflexivity.
Qed.

Lemma userDeleteCurrent_validation_failure (w : World) (req : Request) (res : Locals)
    (error : ValidationError) (errors : list ValidationError) :
  validationResult w (OfParams (params req)) = error :: errors ->
  run UserDeleteCurrent w req res
  = catch_log_forward (CustomError (fold_right (fun _ acc => ", " +:+ acc) "" errors) 400).
Proof.
  intros Hv. unfold_handler. unfold validate_no_return. rewrite Hv.
  rewrite join_undefined, bind_throw. reflexivity.
Qed.

(** On the same failing request a sibling handler, which asks
    [validationResult] about the request, stops with the joined
    message. *)
Lemma userPutCurrent_reports_failed_validation :
  run UserPutCurrent
    (request_validating_world sample_errors (db_found (VObj {["user_name" := VStr "ann"]})))
    (sample_request ∅ None) sample_locals
  = catch_log_500 (CustomError "Invalid value: id, Invalid value: cat_name" 400).
Proof. reflexivity. Qed.

(** C3: for every handler and every validation failure the message is
    built with one ["<msg>: <param>"] segment per failing field.
    Evaluated on [userDeleteCurrent] for a request whose validation fails
    with two failing fields: the handler asks [validationResult] about
    [req.params], which carries no report, where every other handler asks
    about [req]; it builds no message, forwards no error and deletes the
    user. *)
Theorem C3_delete_current_skips_failed_validation :
  run UserDeleteCurrent
    (request_validating_world sample_errors (db_found (VObj {["user_name" := VStr "ann"]})))
    (sample_request ∅ None) sample_locals
  = [ Db {| on := userModel;
            op := FindByIdAndDelete (VStr "u1") (Some (VObj ∅));
            chain := [] |};
      Json (envelope "User deleted"
              (userOutput (VStr "u1") (VStr "ann") (VStr "ann@example.org"))) ].
Proof. reflexivity. Qed.

(** ** The role of a user *)

(** Creation forces the role: whatever the body holds, the document handed
    to [create] has role ["user"]. *)
Lemma userPost_doc_role (req : Request) (hash : string) :
  userPost_doc req hash !! "role" = Some (VStr "user").
Proof. unfold userPost_doc. apply lookup_insert_eq. Qed.

(** C4: no operation stores a role taken from the request body.  Evaluated
    on [userPutCurrent] with the body [{role: "admin"}], the update handed
    to the database for the caller's record is that body, role
    included. *)
Theorem C4_put_current_passes_role :
  db_calls (run UserPutCurrent (world_of [] (db_echo sample_caller))
              (sample_request {["role" := VStr "admin"]} None) sample_locals)
  = [ {| on := userModel;
         op := FindByIdAndUpdate (VStr "u1") (VObj {["role" := VStr "admin"]}) true;
         chain := [] |} ].
Proof. reflexivity. Qed.

(** ** Creating a cat *)

(** With a file attached and a valid request, the created document takes
    its location, owner and file name from the server side, whatever the
    body holds. *)
Lemma catPost_doc_server_assigned (req : Request) (res : Locals) (owner : Value) (f : File) :
  catPost_doc req res owner f !! "location" = Some (coords res)
  /\ catPost_doc req res owner f !! "owner" = Some owner
  /\ catPost_doc req res owner f !! "filename" = Some (VStr (filename f)).
Proof.
  unfold catPost_doc. repeat split.
  - rewrite lookup_insert_ne by discriminate. rewrite lookup_insert_ne by discriminate.
    apply lookup_insert_eq.
  - rewrite lookup_insert_ne by discriminate. apply lookup_insert_eq.
  - apply lookup_insert_eq.
Qed.

Lemma catPost_creates (w : World) (req : Request) (res : Locals) (f : File)
    (caller : gmap string Value) :
  validationResult w (OfRequest req) = [] ->
  file req = Some f ->
  user res = VObj caller ->
  db_calls (run CatPost w req res)
  = [ {| on := catModel;
         op := Create (VObj (catPost_doc req res (get caller "_id") f));
         chain := [] |} ].
Proof.
  intros Hv Hf Hu. unfold_handler.
  rewrite (validate_passes _ _ Hv), bind_ret, Hf, Hu, prop_object, bind_ret.
  unfold await, mbind, M_bind, emit, try_catch.
  destruct (db w _) as [e | cat]; reflexivity.
Qed.

Lemma catPost_without_file (w : World) (req : Request) (res : Locals) :
  validationResult w (OfRequest req) = [] ->
  file req = None ->
  run CatPost w req res = catch_log_500 (CustomError "File not found" 400).
Proof.
  intros Hv Hf. unfold_handler.
  rewrite (validate_passes _ _ Hv), bind_ret, Hf. reflexivity.
Qed.

(** C6: a cat-creation request without an uploaded file fails with status
    400.  Evaluated on such a request, [catPost] inserts nothing but
    forwards ["File not found"] with status 500: the [CustomError] with
    status 400 is thrown inside the handler's own [try] and rewritten by
    its catch block. *)
Theorem C6_missing_file_forwarded_as_500 :
  run CatPost (world_of [] (db_echo VNull))
    (sample_request {["cat_name" := VStr "Tom"]} None) sample_locals
  = [Console (CustomError "File not found" 400); Next (CustomError "File not found" 500)].
Proof. reflexivity. Qed.

(** ** Creating a user *)

Lemma userPost_doc_password (req : Request) (hash : string) :
  userPost_doc req hash !! "password" = Some (VStr hash).
Proof.
  unfold userPost_doc. rewrite lookup_insert_ne by discriminate. apply lookup_insert_eq.
Qed.

(** The data of a user response has the three fields and no other. *)
Lemma userOutput_fields (_id user_name email : Value) :
  exists data : gmap string Value,
    userOutput _id user_name email = VObj data
    /\ dom data = {["_id"; "user_name"; "email"]}
    /\ data !! "password" = None
    /\ data !! "role" = None.
Proof.
  eexists. split; [reflexivity |]. split; [| split].
  - rewrite !dom_insert_L, dom_singleton_L. set_solver.
  - reflexivity.
  - reflexivity.
Qed.

Lemma String_cons_neq (a : ascii) (s : string) : String a s <> s.
Proof.
  revert a. induction s as [| b s IH]; intros a H; [discriminate H |].
  injection H as _ H. exact (IH b H).
Qed.

Lemma toy_bcrypt_contract (errors : list ValidationError) (answer : DbCall -> Outcome Value) :
  bcrypt_contract (world_of errors answer).
Proof.
  intros password salt hash H. simpl in H. injection H as <-. split.
  - apply String_cons_neq.
  - unfold world_of, toy_compareSync. simpl. apply String.eqb_refl.
Qed.

(** C7: whenever [userPost] answers with a response, the response is the
    envelope whose data holds only [_id], [user_name] and [email] of the
    created record; the document handed to [create] carries as password
    the hash computed by [hashSync] with a salt of cost factor 12, which,
    by the contract of the hashing library, differs from the supplied
    password and verifies against it. *)
Theorem C7_user_created (w : World) (req : Request) (res : Locals) (v : Value) :
  In (Json v) (run UserPost w req res) ->
  bcrypt_contract w ->
  exists (hash : string) (created : Value) (data : gmap string Value),
    hashSync w (get (body req) "password") (genSaltSync w 12) = Returns hash
    /\ db w {| on := userModel; op := Create (VObj (userPost_doc req hash)); chain := [] |}
       = Returns created
    /\ run UserPost w req res
       = [ Db {| on := userModel; op := Create (VObj (userPost_doc req hash)); chain := [] |};
           Json v ]
    /\ v = envelope "User created" (VObj data)
    /\ VObj data
       = userOutput (field created "_id") (field created "user_name") (field created "email")
    /\ dom data = {["_id"; "user_name"; "email"]}
    /\ userPost_doc req hash !! "password" = Some (VStr hash)
    /\ VStr hash <> get (body req) "password"
    /\ (forall password : string,
          get (body req) "password" = VStr password ->
          compareSync w password hash = true).
Proof.
  intros Hin Hbcrypt. revert Hin. unfold_handler.
  destruct (validationResult w (OfRequest req)) as [| error errors] eqn:Hv.
  2:{ rewrite validate_fails by (rewrite Hv; discriminate). rewrite bind_throw.
      simpl. intros [H | [H | []]]; discriminate H. }
  rewrite (validate_passes _ _ Hv), bind_ret.
  destruct (hashSync w (get (body req) "password") (genSaltSync w 12)) as [e | hash] eqn:Hh.
  { rewrite bind_lift_throws. simpl. intros [H | [H | []]]; discriminate H. }
  rewrite bind_lift_returns.
  destruct (db w {| on := userModel; op := Create (VObj (userPost_doc req hash)); chain := [] |})
    as [e | created] eqn:Hdb.
  { rewrite (bind_await_throws _ _ _ _ Hdb). simpl.
    intros [H | [H | [H | []]]]; discriminate H. }
  rewrite (bind_await_returns _ _ _ _ Hdb).
  assert (Hne : VStr hash <> get (body req) "password").
  { intros Heq. symmetry in Heq. rewrite Heq in Hh.
    destruct (Hbcrypt _ _ _ Hh) as [Hdiff _]. apply Hdiff. reflexivity. }
  assert (Hcmp : forall password : string,
             get (body req) "password" = VStr password -> compareSync w password hash = true).
  { intros password Hp. rewrite Hp in Hh. exact (proj2 (Hbcrypt _ _ _ Hh)). }
  destruct (userOutput_fields (field created "_id") (field created "user_name")
              (field created "email")) as (data & Hdata & Hdom & _).
  assert (Hprop : (created = VUndef \/ created = VNull)
                  \/ forall k : string, prop created k = mret (field created k))
    by (destruct created; auto).
  cbv beta. destruct Hprop as [[-> | ->] | Hprop].
  - simpl. intros [H | [H | [H | []]]]; discriminate H.
  - simpl. intros [H | [H | [H | []]]]; discriminate H.
  - rewrite !Hprop, !bind_ret. simpl.
    intros [H | [H | []]]; try discriminate H. injection H as <-.
    exists hash, created, data. rewrite Hdata.
    repeat split; auto using userPost_doc_password.
Qed.

Lemma C7_user_created_witness :
  let w := world_of [] (db_echo VNull) in
  let req := sample_request (<["user_name" := VStr "bob"]> (<["email" := VStr "bob@example.org"]>
                            (<["password" := VStr "hunter2"]> {["role" := VStr "admin"]}))) None in
  let v := envelope "User created"
             (userOutput (VStr "new1") (VStr "bob") (VStr "bob@example.org")) in
  In (Json v) (run UserPost w req sample_locals)
  /\ bcrypt_contract w
  /\ exists (hash : string) (created : Value) (data : gmap string Value),
       hashSync w (get (body req) "password") (genSaltSync w 12) = Returns hash
       /\ db w {| on := userModel; op := Create (VObj (userPost_doc req hash)); chain := [] |}
          = Returns created
       /\ run UserPost w req sample_locals
          = [ Db {| on := userModel; op := Create (VObj (userPost_doc req hash)); chain := [] |};
              Json v ]
       /\ v = envelope "User created" (VObj data)
       /\ VObj data
          = userOutput (field created "_id") (field created "user_name") (field created "email")
       /\ dom data = {["_id"; "user_name"; "email"]}
       /\ userPost_doc req hash !! "password" = Some (VStr hash)
       /\ VStr hash <> get (body req) "password"
       /\ (forall password : string,
             get (body req) "password" = VStr password ->
             compareSync w password hash = true).
Proof.
  intros w req v.
  assert (Hin : In (Json v) (run UserPost w req sample_locals))
    by (right; left; reflexivity).
  split; [exact Hin |]. split; [apply toy_bcrypt_contract |].
  exact (C7_user_created w req sample_locals v Hin (toy_bcrypt_contract [] (db_echo VNull))).
Defined.

(** ** The admin-only cat operations *)

Lemma strict_eq_str_false (v : Value) (lit : string) :
  v <> VStr lit -> strict_eq_str v lit = false.
Proof.
  intros H. destruct v; try reflexivity. simpl.
  destruct (String.eqb s lit) eqn:E; [| reflexivity].
  apply String.eqb_eq in E. subst s. contradiction.
Qed.

(** C8: an admin-only cat update or delete that passes validation and is
    made by a caller whose role is not ["admin"] calls nothing: no
    response, no error forwarded, no database access. *)
Theorem C8_non_admin_is_silent (h : Handler) (w : World) (req : Request) (res : Locals)
    (caller : gmap string Value) :
  h = CatPutAdmin \/ h = CatDeleteAdmin ->
  validationResult w (OfRequest req) = [] ->
  user res = VObj caller ->
  get caller "role" <> VStr "admin" ->
  run h w req res = [].
Proof.
  intros [-> | ->] Hv Hu Hrole; unfold_handler;
    rewrite (validate_passes _ _ Hv), bind_ret, Hu, prop_object, bind_ret,
      (strict_eq_str_false _ _ Hrole);
    reflexivity.
Qed.

Lemma C8_non_admin_is_silent_witness :
  let w := world_of [] (db_echo (VObj {["cat_name" := VStr "Tom"]})) in
  let req := sample_request {["owner" := VStr "u2"]} None in
  validationResult w (OfRequest req) = []
  /\ user sample_locals = sample_caller
  /\ get (<["_id" := VStr "u1"]> (<["user_name" := VStr "ann"]>
            (<["email" := VStr "ann@example.org"]> {["role" := VStr "user"]}))) "role"
     <> VStr "admin"
  /\ run CatPutAdmin w req sample_locals = []
  /\ run CatDeleteAdmin w req sample_locals = [].
Proof.
  intros w req.
  assert (Hrole : get (<["_id" := VStr "u1"]> (<["user_name" := VStr "ann"]>
                         (<["email" := VStr "ann@example.org"]> {["role" := VStr "user"]})))
                      "role" <> VStr "admin")
    by (vm_compute; discriminate).
  split; [reflexivity |]. split; [reflexivity |]. split; [exact Hrole |]. split.
  - exact (C8_non_admin_is_silent CatPutAdmin w req sample_locals _
             (or_introl eq_refl) eq_refl eq_refl Hrole).
  - exact (C8_non_admin_is_silent CatDeleteAdmin w req sample_locals _
             (or_intror eq_refl) eq_refl eq_refl Hrole).
Defined.

(** ** Updating the current user *)

(** C9: [userPutCurrent] hands the request body as it is to the update of
    the caller's record, so a password in the body reaches the record as
    supplied; the handler does not depend on the hashing library, whereas
    creation replaces the password by its hash. *)
Theorem C9_put_current_body_verbatim (w : World) (req : Request) (res : Locals)
    (caller : gmap string Value) :
  validationResult w (OfRequest req) = [] ->
  user res = VObj caller ->
  (exists update : gmap string Value,
      db_calls (run UserPutCurrent w req res)
      = [ {| on := userModel;
             op := FindByIdAndUpdate (get caller "_id") (VObj update) true;
             chain := [] |} ]
      /\ update = body req
      /\ forall password : Value,
           body req !! "password" = Some password -> update !! "password" = Some password)
  /\ (forall (salt : Z -> string) (hash : Value -> string -> Outcome string)
             (compare : string -> string -> bool),
        run UserPutCurrent
          {| validationResult := validationResult w; db := db w;
             genSaltSync := salt; hashSync := hash; compareSync := compare |} req res
        = run UserPutCurrent w req res)
  /\ (forall hash : string, userPost_doc req hash !! "password" = Some (VStr hash)).
Proof.
  intros Hv Hu. split; [| split].
  - exists (body req). split; [| split; [reflexivity | auto]].
    unfold_handler.
    rewrite (validate_passes _ _ Hv), bind_ret, Hu, prop_object, bind_ret.
    unfold await, mbind, M_bind, found_or_404, emit, try_catch.
    destruct (db w _) as [e | updated]; [reflexivity |].
    destruct (truthy updated); reflexivity.
  - intros salt hash compare. destruct w. reflexivity.
  - apply userPost_doc_password.
Qed.

Lemma C9_put_current_body_verbatim_witness :
  let w := world_of [] (db_echo sample_caller) in
  let req := sample_request {["password" := VStr "hunter2"]} None in
  validationResult w (OfRequest req) = []
  /\ db_calls (run UserPutCurrent w req sample_locals)
     = [ {| on := userModel;
            op := FindByIdAndUpdate (VStr "u1") (VObj {["password" := VStr "hunter2"]}) true;
            chain := [] |} ].
Proof.
  intros w req. split; [reflexivity |].
  destruct (C9_put_current_body_verbatim w req sample_locals _ eq_refl eq_refl)
    as [(update & Hcalls & -> & _) _].
  exact Hcalls.
Defined.

(** ** Listing the users *)

(** C10: when the query of [userListGet] yields [null] or [undefined], the
    handler forwards the 404 error and, having no early return, also hands
    the result to [res.json]. *)
Theorem C10_list_users_null_runs_both (w : World) (req : Request) (res : Locals)
    (users : Value) :
  db w {| on := userModel; op := Find NoFilter; chain := [Select "-password -role"] |}
  = Returns users ->
  users = VNull \/ users = VUndef ->
  run UserListGet w req res
  = [ Db {| on := userModel; op := Find NoFilter; chain := [Select "-password -role"] |};
      Next (CustomError "No users found" 404);
      Json users ].
Proof.
  intros Hdb Hnull. unfold_handler.
  rewrite (bind_await_returns _ _ _ _ Hdb).
  destruct Hnull as [-> | ->]; reflexivity.
Qed.

Lemma C10_list_users_null_runs_both_witness :
  let w := world_of [] db_null in
  db w {| on := userModel; op := Find NoFilter; chain := [Select "-password -role"] |}
  = Returns VNull
  /\ run UserListGet w (sample_request ∅ None) sample_locals
     = [ Db {| on := userModel; op := Find NoFilter; chain := [Select "-password -role"] |};
         Next (CustomError "No users found" 404);
         Json VNull ].
Proof.
  intros w. split; [reflexivity |].
  exact (C10_list_users_null_runs_both w (sample_request ∅ None) sample_locals VNull
           eq_refl (or_introl eq_refl)).
Defined.

(** ** The bounding-box query *)

Lemma digits_dot (radix : Z) (s rest : string) (acc : option Z) :
  digits radix (s +:+ String "." rest) acc = digits radix s acc.
Proof.
  revert acc. induction s as [| a s IH]; intros acc; [reflexivity |].
  simpl. destruct (digit radix a); [apply IH | reflexivity].
Qed.

Lemma trim_start_dot_bounded (rest : string) (n : nat) (s : string) :
  (String.length s <= n)%nat ->
  trim_start (s +:+ String "." rest) = trim_start s +:+ String "." rest.
Proof.
  revert s. induction n as [| n IH]; intros s Hlen.
  - destruct s; [| simpl in Hlen; lia].
    destruct rest as [| b [| c r]]; reflexivity.
  - destruct s as [| a [| b [| c r3]]].
    + destruct rest as [| b [| c r]]; reflexivity.
    + simpl. destruct (is_space a).
      * destruct rest as [| b [| c r]]; reflexivity.
      * unfold is_space2, is_space3. change (byte ".") with 46. cbn [Z.eqb Pos.eqb].
        rewrite ?andb_false_r. cbn [orb andb]. destruct rest; reflexivity.
    + simpl. destruct (is_space a).
      * apply (IH (String b "")). simpl in *. lia.
      * destruct (is_space2 a b); [destruct rest as [| x [| y r]]; reflexivity |].
        unfold is_space3. change (byte ".") with 46.
        cbn [Z.eqb Pos.eqb Z.leb Z.compare Pos.compare Pos.compare_cont].
        rewrite ?andb_false_r. cbn [orb andb]. reflexivity.
    + simpl. destruct (is_space a).
      * apply (IH (String b (String c r3))). simpl in *. lia.
      * destruct (is_space2 a b).
        -- apply (IH (String c r3)). simpl in *. lia.
        -- destruct (is_space3 a b c); [| reflexivity].
           apply (IH r3). simpl in *. lia.
Qed.

Lemma trim_start_dot (s rest : string) :
  trim_start (s +:+ String "." rest) = trim_start s +:+ String "." rest.
Proof. apply (trim_start_dot_bounded rest (String.length s)). lia. Qed.

Lemma strip_sign_dot (s rest : string) :
  strip_sign (s +:+ String "." rest)
  = (fst (strip_sign s), snd (strip_sign s) +:+ String "." rest).
Proof.
  destruct s as [| a s]; [reflexivity |].
  simpl. destruct (Ascii.eqb a "-"); [reflexivity |].
  destruct (Ascii.eqb a "+"); reflexivity.
Qed.

Lemma strip_prefix_dot (s rest : string) :
  strip_prefix (s +:+ String "." rest)
  = (fst (strip_prefix s), snd (strip_prefix s) +:+ String "." rest).
Proof.
  destruct s as [| a [| b s]].
  - destruct rest; reflexivity.
  - simpl. rewrite andb_false_r. reflexivity.
  - simpl. destruct (Ascii.eqb a "0" && (Ascii.eqb b "x" || Ascii.eqb b "X")); reflexivity.
Qed.

(** [parseInt] reads nothing past a decimal point. *)
Lemma parseInt_discards_fraction (s fraction : string) :
  parseInt_string (s +:+ "." +:+ fraction) = parseInt_string s.
Proof.
  change ("." +:+ fraction) with (String "." fraction).
  unfold parseInt_string.
  rewrite trim_start_dot, strip_sign_dot.
  destruct (strip_sign (trim_start s)) as [negative s1]. simpl fst; simpl snd.
  rewrite strip_prefix_dot.
  destruct (strip_prefix s1) as [radix s2]. simpl fst; simpl snd.
  rewrite digits_dot. reflexivity.
Qed.

(** *** Parsing a decimal numeral *)

(** Moves an append past the characters in front of it. *)
Ltac push_append :=
  repeat match goal with
    | |- context [String ?a ?s +:+ ?r] =>
        change (String a s +:+ r) with (String a (s +:+ r))
    | |- context [EmptyString +:+ ?r] => change (EmptyString +:+ r) with r
    end.

Lemma digits_of_uint_acc (d : Decimal.uint) (rest : string) (acc : positive) :
  digits 10 (NilEmpty.string_of_uint d +:+ rest) (Some (Z.pos acc))
  = digits 10 rest (Some (Z.pos (Pos.of_uint_acc d acc))).
Proof.
  revert acc. induction d as [| d IH | d IH | d IH | d IH | d IH | d IH | d IH | d IH | d IH
                             | d IH]; intros acc; [reflexivity | ..];
    simpl; rewrite <- IH; do 2 f_equal;
    match goal with
    | |- context [Z.of_nat (nat_of_ascii ?c)] =>
        let v := eval vm_compute in (Z.of_nat (nat_of_ascii c)) in
        change (Z.of_nat (nat_of_ascii c)) with v
    end; lia.
Qed.

Lemma digits_of_uint (d : Decimal.uint) (rest : string) :
  digits 10 (NilEmpty.string_of_uint d +:+ rest) (Some 0)
  = digits 10 rest (Some (Z.of_N (Pos.of_uint d))).
Proof.
  induction d as [| d IH | d IH | d IH | d IH | d IH | d IH | d IH | d IH | d IH | d IH];
    [reflexivity | exact IH | ..];
    simpl; rewrite <- digits_of_uint_acc; reflexivity.
Qed.

Lemma digits_first (d : Decimal.uint) (rest : string) :
  d <> Decimal.Nil ->
  digits 10 (NilEmpty.string_of_uint d +:+ rest) None
  = digits 10 (NilEmpty.string_of_uint d +:+ rest) (Some 0).
Proof. destruct d; [contradiction | ..]; reflexivity. Qed.

Lemma trim_start_of_uint (d : Decimal.uint) (rest : string) :
  d <> Decimal.Nil ->
  trim_start (NilEmpty.string_of_uint d +:+ rest) = NilEmpty.string_of_uint d +:+ rest.
Proof.
  destruct d; [contradiction | ..]; intros _;
    cbn [NilEmpty.string_of_uint]; push_append;
    generalize (NilEmpty.string_of_uint d +:+ rest); intros r;
    destruct r as [| b [| c r3]]; reflexivity.
Qed.

Lemma trim_start_minus (r : string) : trim_start (String "-" r) = String "-" r.
Proof. destruct r as [| b [| c r3]]; reflexivity. Qed.

Lemma strip_sign_of_uint (d : Decimal.uint) (rest : string) :
  d <> Decimal.Nil ->
  strip_sign (NilEmpty.string_of_uint d +:+ rest)
  = (false, NilEmpty.string_of_uint d +:+ rest).
Proof. destruct d; [contradiction | ..]; reflexivity. Qed.

Lemma strip_prefix_of_uint (d : Decimal.uint) (rest : string) :
  d <> Decimal.Nil ->
  rest = "" \/ (exists f : string, rest = String "." f) ->
  strip_prefix (NilEmpty.string_of_uint d +:+ rest)
  = (10, NilEmpty.string_of_uint d +:+ rest).
Proof.
  intros Hd Hrest.
  destruct d as [| d | d | d | d | d | d | d | d | d | d]; [contradiction | ..];
    destruct d; try reflexivity; destruct Hrest as [-> | [f ->]]; reflexivity.
Qed.

Lemma digits_stop (radix : Z) (rest : string) (acc : option Z) :
  rest = "" \/ (exists f : string, rest = String "." f) ->
  digits radix rest acc = acc.
Proof. intros [-> | [f ->]]; reflexivity. Qed.

Lemma parseInt_some (s : string) : parseInt (Some s) = parseInt_string s.
Proof. reflexivity. Qed.

Lemma append_empty (s : string) : s +:+ "" = s.
Proof. induction s as [| a s IH]; [reflexivity |]. push_append. rewrite IH. reflexivity. Qed.

(** The numeral of [n], with or without a minus sign and whatever follows
    a decimal point, parses to the double nearest to the signed [n]. *)
Lemma parseInt_numeral (negative : bool) (n : N) (rest : string) :
  rest = "" \/ (exists f : string, rest = String "." f) ->
  parseInt_string (numeral negative n +:+ rest) = Some (to_double negative (Z.of_N n)).
Proof.
  intros Hrest.
  assert (Hd : N.to_uint n <> Decimal.Nil).
  { destruct n; [discriminate | apply Unsigned.to_uint_nonnil]. }
  assert (Hn : Pos.of_uint (N.to_uint n) = n) by apply DecimalN.Unsigned.of_to.
  unfold parseInt_string, numeral.
  destruct negative; push_append.
  - rewrite trim_start_minus. cbn [strip_sign Ascii.eqb Bool.eqb].
    rewrite (strip_prefix_of_uint _ _ Hd Hrest), (digits_first _ _ Hd), digits_of_uint,
      (digits_stop _ _ _ Hrest), Hn.
    reflexivity.
  - rewrite (trim_start_of_uint _ _ Hd), (strip_sign_of_uint _ _ Hd),
      (strip_prefix_of_uint _ _ Hd Hrest), (digits_first _ _ Hd), digits_of_uint,
      (digits_stop _ _ _ Hrest), Hn.
    reflexivity.
Qed.

(** Below [2 ^ 53] every integer is a double. *)
Lemma to_double_exact (negative : bool) (n : Z) :
  0 < n < 2 ^ 53 ->
  to_double negative n = Finite (if negative then - n else n).
Proof.
  intros Hn. unfold to_double.
  assert (Hlog : Z.log2 n < 53) by (apply Z.log2_lt_pow2; lia).
  assert (Hbig : 2 ^ 53 < Z.shiftl 1 1024) by reflexivity.
  destruct (Z.eqb_spec n 0) as [H0 | _]; [lia |].
  destruct (Z.leb_spec (Z.log2 n - 52) 0) as [_ | He]; [| lia].
  cbv zeta. destruct (Z.leb_spec (Z.shiftl 1 1024) n) as [Hle | _]; [lia | reflexivity].
Qed.

Lemma parseInt_decimal (z : Z) (rest : string) :
  Z.abs z < 2 ^ 53 ->
  rest = "" \/ (exists f : string, rest = String "." f) ->
  parseInt_string (decimal z +:+ rest) = Some (Finite z).
Proof.
  intros Hz Hrest. unfold decimal. rewrite (parseInt_numeral _ _ _ Hrest).
  rewrite N2Z.inj_abs_N. f_equal.
  destruct (Z.eq_dec z 0) as [-> | Hne]; [reflexivity |].
  rewrite to_double_exact by lia.
  destruct (Z.ltb_spec z 0); f_equal; lia.
Qed.

Lemma parseInt_coordinate (z : Z) (fraction : option string) :
  Z.abs z < 2 ^ 53 ->
  parseInt (Some (coordinate z fraction)) = Some (Finite z).
Proof.
  intros Hz. unfold parseInt, coordinate. cbn [default].
  apply (parseInt_decimal z _ Hz).
  destruct fraction as [f |]; [right; exists f; reflexivity | left; reflexivity].
Qed.

(** Past [2 ^ 53] the result is rounded to a double, a minus sign in front
    of a zero is kept, and Unicode white space is skipped. *)
Lemma parseInt_rounds :
  parseInt (Some "9007199254740993") = Some (Finite 9007199254740992)
  /\ parseInt (Some "-9007199254740995") = Some (Finite (-9007199254740996))
  /\ parseInt (Some "-0.5") = Some NegZero
  /\ parseInt (Some (numeral false (10 ^ 400))) = Some (Infinite false)
  /\ parseInt (Some (String (ascii_of_nat 194) (String (ascii_of_nat 160) "42")))
     = Some (Finite 42).
Proof. repeat split; vm_compute; reflexivity. Qed.

(** *** Splitting at the commas *)

Lemma contains_append (c : ascii) (s t : string) :
  contains c (s +:+ t) = contains c s || contains c t.
Proof.
  induction s as [| a s IH]; [reflexivity |].
  push_append. cbn [contains]. rewrite IH. apply orb_assoc.
Qed.

Lemma contains_of_uint (d : Decimal.uint) : contains "," (NilEmpty.string_of_uint d) = false.
Proof. induction d; [reflexivity | ..]; exact IHd. Qed.

Lemma contains_coordinate (z : Z) (fraction : option string) :
  comma_free fraction = true -> contains "," (coordinate z fraction) = false.
Proof.
  intros Hf. unfold coordinate, decimal, numeral. rewrite !contains_append, contains_of_uint.
  destruct (z <? 0); destruct fraction as [f |]; try reflexivity;
    cbn [comma_free] in Hf; apply negb_true_iff in Hf;
    change ("." +:+ f) with (String "." f); cbn [contains]; rewrite Hf; reflexivity.
Qed.

Lemma split_without_separator (c : ascii) (s : string) :
  contains c s = false -> split c s = [s].
Proof.
  induction s as [| a s IH]; [reflexivity |].
  cbn [contains split]. intros H. apply orb_false_iff in H as [Ha Hs].
  rewrite Ha, (IH Hs). reflexivity.
Qed.

Lemma split_at_separator (c : ascii) (s rest : string) :
  contains c s = false -> split c (s +:+ String c rest) = s :: split c rest.
Proof.
  induction s as [| a s IH]; intros H.
  - simpl. rewrite Ascii.eqb_refl. reflexivity.
  - cbn [contains] in H. apply orb_false_iff in H as [Ha Hs].
    simpl. rewrite Ha, (IH Hs). reflexivity.
Qed.

(** The corners read from a query string of two components each. *)
Lemma corners_of_two_components (q : QueryString) (a b c d : string) :
  contains "," a = false -> contains "," b = false ->
  contains "," c = false -> contains "," d = false ->
  topRight q = a +:+ "," +:+ b ->
  bottomLeft q = c +:+ "," +:+ d ->
  boundingBoxCorners q
  = ({| lng := parseInt (Some a); lat := parseInt (Some b) |},
     {| lat := parseInt (Some c); lng := parseInt (Some d) |}).
Proof.
  intros Ha Hb Hc Hd Htr Hbl. unfold boundingBoxCorners. rewrite Htr, Hbl.
  change ("," +:+ b) with (String "," b). change ("," +:+ d) with (String "," d).
  rewrite (split_at_separator _ a _ Ha), (split_at_separator _ c _ Hc).
  rewrite (split_without_separator _ b Hb), (split_without_separator _ d Hd).
  reflexivity.
Qed.

(** *** Containment in the ring *)

Lemma Qle_bool_true (a b : Q) : (a <= b)%Q -> Qle_bool a b = true.
Proof. apply Qle_bool_iff. Qed.

Lemma Qle_bool_false (a b : Q) : (b < a)%Q -> Qle_bool a b = false.
Proof.
  intros H. destruct (Qle_bool a b) eqn:E; [| reflexivity].
  apply Qle_bool_iff in E. lra.
Qed.

Lemma Qeq_bool_true (a b : Q) : (a == b)%Q -> Qeq_bool a b = true.
Proof. apply Qeq_bool_iff. Qed.

Lemma Qeq_bool_false (a b : Q) : (a < b \/ b < a)%Q -> Qeq_bool a b = false.
Proof.
  intros H. destruct (Qeq_bool a b) eqn:E; [| reflexivity].
  apply Qeq_bool_iff in E. lra.
Qed.

(** Settles every comparison of the goal from the hypotheses. *)
Ltac decide_tests :=
  repeat match goal with
    | |- context [Qle_bool ?a ?b] =>
        first [ rewrite (Qle_bool_true a b) by nra
              | rewrite (Qle_bool_false a b) by nra ]
    | |- context [Qeq_bool ?a ?b] =>
        first [ rewrite (Qeq_bool_true a b) by nra
              | rewrite (Qeq_bool_false a b) by nra ]
    end.

Lemma position (lo hi t : Q) :
  (lo < hi)%Q ->
  (t < lo \/ t == lo \/ (lo < t /\ t < hi) \/ t == hi \/ hi < t)%Q.
Proof.
  intros H.
  destruct (Q_dec t lo) as [[H1 | H1] | H1]; [auto | | auto].
  destruct (Q_dec t hi) as [[H' | H'] | H']; auto.
Qed.

(** The ring around a rectangle contains exactly the closed rectangle. *)
Lemma within_rectangle (lat0 lng0 lat1 lng1 : Q) (p : Location) :
  (lat0 < lat1)%Q -> (lng0 < lng1)%Q ->
  within (rectangle_ring lat0 lng0 lat1 lng1) p = in_rectangle lat0 lng0 lat1 lng1 p.
Proof.
  intros Hlat Hlng. destruct p as [y x].
  cbv beta iota delta [within rectangle_ring on_boundary winding edges fold_right existsb
    crossing on_edge is_left between Qltb fst snd latitude longitude in_rectangle].
  destruct (position lat0 lat1 y Hlat) as [Hy | [Hy | [Hy | [Hy | Hy]]]];
    destruct (position lng0 lng1 x Hlng) as [Hx | [Hx | [Hx | [Hx | Hx]]]];
    decide_tests; reflexivity.
Qed.

Lemma within_square (p : Location) : within square p = in_rectangle 0 0 10 10 p.
Proof. apply (within_rectangle 0 0 10 10 p); reflexivity. Qed.

Lemma catGetByBoundingBox_call (w : World) (req : Request) (res : Locals) :
  validationResult w (OfRequest req) = [] ->
  db_calls (run CatGetByBoundingBox w req res) = [boundingBoxCall (query req)].
Proof.
  intros Hv. unfold_handler.
  rewrite (validate_passes _ _ Hv), bind_ret.
  unfold boundingBoxCall. destruct (boundingBoxCorners (query req)) as [tr bl].
  unfold await, mbind, M_bind, found_or_404, emit, try_catch. simpl fst; simpl snd.
  destruct (db w _) as [e | cats]; [reflexivity |].
  destruct (truthy cats); reflexivity.
Qed.

(** The run of a bounding-box query whose corners are integers, against
    a collection that answers the geometry query by containment in the
    ring. *)
Lemma catGetByBoundingBox_rectangle (w : World) (req : Request) (res : Locals)
    (cats : list StoredCat) (lat0 lng0 lat1 lng1 : Z) :
  validationResult w (OfRequest req) = [] ->
  boundingBoxCorners (query req)
  = ({| lng := Some (Finite lng1); lat := Some (Finite lat1) |},
     {| lat := Some (Finite lat0); lng := Some (Finite lng0) |}) ->
  lat0 < lat1 -> lng0 < lng1 ->
  geoWithin_answers w cats ->
  run CatGetByBoundingBox w req res
  = [ Db (boundingBoxCall (query req));
      Json (VArr (map snd
                    (List.filter
                       (fun c => in_rectangle (inject_Z lat0) (inject_Z lng0)
                                   (inject_Z lat1) (inject_Z lng1) (fst c))
                       cats))) ].
Proof.
  intros Hv Hcorners Hlat Hlng Hgeo.
  pose proof (Hgeo (rectangleBounds {| lng := Some (Finite lng1); lat := Some (Finite lat1) |}
                      {| lat := Some (Finite lat0); lng := Some (Finite lng0) |})
                (rectangle_ring (inject_Z lat0) (inject_Z lng0) (inject_Z lat1) (inject_Z lng1))
                eq_refl) as Hdb.
  unfold_handler.
  rewrite (validate_passes _ _ Hv), bind_ret.
  unfold boundingBoxCall. rewrite Hcorners. cbn [fst snd].
  rewrite (bind_await_returns _ _ _ _ Hdb).
  assert (HlatQ : (inject_Z lat0 < inject_Z lat1)%Q) by (rewrite <- Zlt_Qlt; exact Hlat).
  assert (HlngQ : (inject_Z lng0 < inject_Z lng1)%Q) by (rewrite <- Zlt_Qlt; exact Hlng).
  rewrite (List.filter_ext _ _
             (fun c => within_rectangle (inject_Z lat0) (inject_Z lng0) (inject_Z lat1)
                         (inject_Z lng1) (fst c) HlatQ HlngQ)).
  reflexivity.
Qed.

(** C5: a bounding-box query parses each component of [topRight] and
    [bottomLeft] as an integer, the text after a decimal point being
    discarded, and hands the two corners to [rectangleBounds]; for
    [topRight = "10,10"] and [bottomLeft = "0,0"], against a collection
    that answers the geometry query by containment in the ring, the
    response is exactly the list of records located in the closed
    rectangle between (0,0) and (10,10).  In full: the numeral of an
    integer below [2 ^ 53], signed or not, followed or not by a decimal
    point and more, parses to that integer; the components are the texts
    around the first comma, the first of [topRight] read as [lng] and the
    first of [bottomLeft] as [lat]; and for integer coordinates the
    response is the list of records in the closed rectangle these two
    corners span. *)
Theorem C5_bounding_box (w : World) (req : Request) (res : Locals) :
  validationResult w (OfRequest req) = [] ->
  (forall (negative : bool) (n : N) (fraction : string),
      (n < 2 ^ 53)%N ->
      parseInt (Some (numeral negative n))
      = Some (if negative then (if (n =? 0)%N then NegZero else Finite (- Z.of_N n))
              else Finite (Z.of_N n))
      /\ parseInt (Some (numeral negative n +:+ "." +:+ fraction))
         = parseInt (Some (numeral negative n)))
  /\ (forall a b c d : string,
        contains "," a = false -> contains "," b = false ->
        contains "," c = false -> contains "," d = false ->
        topRight (query req) = a +:+ "," +:+ b ->
        bottomLeft (query req) = c +:+ "," +:+ d ->
        db_calls (run CatGetByBoundingBox w req res)
        = [ {| on := catModel;
               op := Find (LocationGeoWithin
                       (rectangleBounds
                          {| lng := parseInt (Some a); lat := parseInt (Some b) |}
                          {| lat := parseInt (Some c); lng := parseInt (Some d) |}));
               chain := [] |} ])
  /\ (forall (cats : list StoredCat) (A B C D : Z) (fa fb fc fd : option string),
        Z.abs A < 2 ^ 53 -> Z.abs B < 2 ^ 53 -> Z.abs C < 2 ^ 53 -> Z.abs D < 2 ^ 53 ->
        comma_free fa = true -> comma_free fb = true ->
        comma_free fc = true -> comma_free fd = true ->
        topRight (query req) = coordinate A fa +:+ "," +:+ coordinate B fb ->
        bottomLeft (query req) = coordinate C fc +:+ "," +:+ coordinate D fd ->
        C < B -> D < A ->
        geoWithin_answers w cats ->
        run CatGetByBoundingBox w req res
        = [ Db (boundingBoxCall (query req));
            Json (VArr (map snd
                          (List.filter
                             (fun c => in_rectangle (inject_Z C) (inject_Z D)
                                         (inject_Z B) (inject_Z A) (fst c))
                             cats))) ])
  /\ (forall cats : list StoredCat,
        topRight (query req) = "10,10" ->
        bottomLeft (query req) = "0,0" ->
        geoWithin_answers w cats ->
        run CatGetByBoundingBox w req res
        = [ Db (boundingBoxCall (query req));
            Json (VArr (map snd (List.filter (fun c => in_rectangle 0 0 10 10 (fst c)) cats))) ]).
Proof.
  intros Hv. split; [| split; [| split]].
  - intros negative n fraction Hn.
    assert (Hparse : parseInt (Some (numeral negative n))
                     = Some (if negative
                             then (if (n =? 0)%N then NegZero else Finite (- Z.of_N n))
                             else Finite (Z.of_N n))).
    { rewrite parseInt_some.
      pose proof (parseInt_numeral negative n "" (or_introl eq_refl)) as H.
      rewrite append_empty in H. rewrite H. f_equal.
      destruct (N.eqb_spec n 0) as [-> | Hne]; [destruct negative; reflexivity |].
      rewrite to_double_exact by lia. destruct negative; reflexivity. }
    split; [exact Hparse |].
    rewrite !parseInt_some. apply parseInt_discards_fraction.
  - intros a b c d Ha Hb Hc Hd Htr Hbl.
    rewrite (catGetByBoundingBox_call w req res Hv). unfold boundingBoxCall.
    rewrite (corners_of_two_components _ a b c d Ha Hb Hc Hd Htr Hbl). reflexivity.
  - intros cats A B C D fa fb fc fd HA HB HC HD Hfa Hfb Hfc Hfd Htr Hbl Hlat Hlng Hgeo.
    apply (catGetByBoundingBox_rectangle w req res cats C D B A Hv); try assumption.
    rewrite (corners_of_two_components _ _ _ _ _
               (contains_coordinate A fa Hfa) (contains_coordinate B fb Hfb)
               (contains_coordinate C fc Hfc) (contains_coordinate D fd Hfd) Htr Hbl).
    rewrite !parseInt_coordinate by assumption. reflexivity.
  - intros cats Htr Hbl Hgeo.
    apply (catGetByBoundingBox_rectangle w req res cats 0 0 10 10 Hv); try lia;
      try assumption.
    unfold boundingBoxCorners. rewrite Htr, Hbl. reflexivity.
Qed.

Lemma C5_bounding_box_witness :
  let w := world_of [] (db_geo sample_cats) in
  let req := {| params := ∅;
                query := {| topRight := "20.9,10"; bottomLeft := "-1,0.5" |};
                body := ∅;
                file := None |} in
  validationResult w (OfRequest req) = []
  /\ topRight (query req) = coordinate 20 (Some "9") +:+ "," +:+ coordinate 10 None
  /\ bottomLeft (query req) = coordinate (-1) None +:+ "," +:+ coordinate 0 (Some "5")
  /\ geoWithin_answers w sample_cats
  /\ run CatGetByBoundingBox w req sample_locals
     = [ Db (boundingBoxCall (query req));
         Json (VArr [VStr "inside"; VStr "corner"]) ].
Proof.
  intros w req.
  assert (Hgeo : geoWithin_answers w sample_cats).
  { intros g vs Hg. unfold w, world_of, db_geo. cbn [db on op chain]. rewrite Hg. reflexivity. }
  split; [reflexivity |]. split; [reflexivity |]. split; [reflexivity |].
  split; [exact Hgeo |].
  exact (proj1 (proj2 (proj2 (C5_bounding_box w req sample_locals eq_refl)))
           sample_cats 20 10 (-1) 0 (Some "9") None None (Some "5")
           eq_refl eq_refl eq_refl eq_refl eq_refl eq_refl eq_refl eq_refl
           eq_refl eq_refl eq_refl eq_refl Hgeo).
Defined.

(** * Further properties of the handlers *)

Ltac unfold_monad :=
  unfold validate, validate_no_return, await, prop, found_or_404, emit, lift, throw,
    try_catch, mbind, M_bind, mret, M_ret, boundingBoxCorners;
  cbv beta iota zeta.

(** Splits a handler's run along the answers of the world. *)
Ltac split_cases :=
  repeat match goal with
    | |- context [match validationResult ?w ?t with _ => _ end] =>
        destruct (validationResult w t) eqn:?
    | |- context [match db ?w ?c with _ => _ end] => destruct (db w c) eqn:?
    | |- context [match hashSync ?w ?v ?s with _ => _ end] => destruct (hashSync w v s) eqn:?
    | |- context [match file ?r with _ => _ end] => destruct (file r) eqn:?
    | |- context [match user ?r with _ => _ end] => destruct (user r) eqn:?
    | |- context [if truthy ?v then _ else _] => destruct (truthy v) eqn:?
    | |- context [if negb (truthy ?v) then _ else _] => destruct (truthy v) eqn:?
    | |- context [if strict_eq_str ?v ?s then _ else _] => destruct (strict_eq_str v s) eqn:?
    | |- context [match ?v with VUndef => _ | _ => _ end] => is_var v; destruct v
    end.

Ltac run_cases := unfold_handler; unfold_monad; split_cases.

(** ** How often a handler calls the database and answers *)

(** X1: no handler calls the database more than once in a run. *)
Theorem at_most_one_db_call (h : Handler) (w : World) (req : Request) (res : Locals) :
  (List.length (db_calls (run h w req res)) <= 1)%nat.
Proof. destruct h; run_cases; simpl; lia. Qed.

(** X2: every handler but [userListGet] answers a request at most once,
    by a response or by a forwarded error, never both; all of them but
    the two admin-only cat handlers answer exactly once. *)
Theorem answered_once (h : Handler) (w : World) (req : Request) (res : Locals) :
  h <> UserListGet ->
  (answers (run h w req res) <= 1)%nat
  /\ (h <> CatPutAdmin -> h <> CatDeleteAdmin -> answers (run h w req res) = 1%nat).
Proof.
  intros Hne. unfold answers.
  destruct h; try congruence; run_cases; simpl; split; intros; try lia; congruence.
Qed.

Lemma answered_once_witness :
  CatGet <> UserListGet
  /\ answers (run CatGet (world_of [] db_null) (sample_request ∅ None) sample_locals) = 1%nat.
Proof.
  assert (Hne : CatGet <> UserListGet) by discriminate.
  split; [exact Hne |].
  apply (proj2 (answered_once CatGet (world_of [] db_null) (sample_request ∅ None)
                  sample_locals Hne)); discriminate.
Defined.

(** ** Which collection a handler touches and which errors it forwards *)

(** X3: every database call of a handler is on the handler's own
    collection (cats for the cat handlers, users for the user handlers,
    none for [checkToken]), and the handlers behind the read routes only
    call [find] and [findById]. *)
Theorem stays_in_its_collection (h : Handler) (w : World) (req : Request) (res : Locals)
    (c : DbCall) :
  In c (db_calls (run h w req res)) ->
  model_of h = Some (on c)
  /\ (read_handler h = true -> reads_only (op c) = true).
Proof.
  destruct h; run_cases; simpl; intros Hin;
    repeat (destruct Hin as [<- | Hin]); try contradiction; split; intros; try reflexivity;
    discriminate.
Qed.

Lemma stays_in_its_collection_witness :
  let c := {| on := catModel; op := FindById (VStr "c1");
              chain := [Populate "owner" (Some "user_name email")] |} in
  In c (db_calls (run CatGet (world_of [] db_null) (sample_request ∅ None) sample_locals))
  /\ model_of CatGet = Some (on c)
  /\ reads_only (op c) = true.
Proof.
  intros c.
  assert (Hin : In c (db_calls (run CatGet (world_of [] db_null) (sample_request ∅ None)
                                  sample_locals)))
    by (left; reflexivity).
  destruct (stays_in_its_collection CatGet _ _ _ c Hin) as [Hmodel Hread].
  split; [exact Hin |]. split; [exact Hmodel |]. apply Hread. reflexivity.
Defined.

(** X4: an error forwarded by a handler other than [userDeleteCurrent]
    carries status 500, or status 404 together with the message of the
    handler's not-found check, or is the 403 of [checkToken]; in
    particular none of them ever forwards a status 400. *)
Theorem forwarded_statuses (h : Handler) (w : World) (req : Request) (res : Locals)
    (e : Err) :
  h <> UserDeleteCurrent ->
  In e (forwarded (run h w req res)) ->
  status e = Some 500
  \/ (status e = Some 404 /\ not_found_message h = Some (message e))
  \/ (h = CheckToken /\ e = CustomError "Token is not valid" 403).
Proof.
  intros Hne.
  destruct h; try congruence; run_cases; simpl; intros Hin;
    repeat (destruct Hin as [<- | Hin]); try contradiction; simpl; auto.
Qed.

Lemma forwarded_statuses_witness :
  let e := CustomError "No cat found" 404 in
  CatGet <> UserDeleteCurrent
  /\ In e (forwarded (run CatGet (world_of [] db_null) (sample_request ∅ None) sample_locals))
  /\ (status e = Some 500
      \/ (status e = Some 404 /\ not_found_message CatGet = Some (message e))
      \/ (CatGet = CheckToken /\ e = CustomError "Token is not valid" 403)).
Proof.
  intros e.
  assert (Hne : CatGet <> UserDeleteCurrent) by discriminate.
  assert (Hin : In e (forwarded (run CatGet (world_of [] db_null) (sample_request ∅ None)
                                   sample_locals)))
    by (left; reflexivity).
  split; [exact Hne |]. split; [exact Hin |].
  exact (forwarded_statuses CatGet _ _ _ e Hne Hin).
Defined.

(** X5: in every handler with a not-found check other than [userListGet],
    when validation passes, the caller is known (and is an admin, for the
    admin-only handlers) and the query yields a falsy result, the handler
    makes its one call, sends no response and forwards exactly the error
    with the handler's not-found message and status 404. *)
Theorem not_found_is_404 (h : Handler) (m : string) (w : World) (req : Request)
    (res : Locals) (caller : gmap string Value) :
  not_found_message h = Some m ->
  h <> UserListGet ->
  (forall t : Validated, gate_target h req = Some t -> validationResult w t = []) ->
  user res = VObj caller ->
  (h = CatPutAdmin \/ h = CatDeleteAdmin -> get caller "role" = VStr "admin") ->
  (forall c : DbCall, exists v : Value, db w c = Returns v /\ truthy v = false) ->
  forwarded (run h w req res) = [CustomError m 404]
  /\ responses (run h w req res) = []
  /\ List.length (db_calls (run h w req res)) = 1%nat.
Proof.
  intros Hm Hne Hgate Hu Hadmin Hdb.
  assert (Hthrows : forall (c : DbCall) (e : Err), db w c <> Throws e).
  { intros c e H. destruct (Hdb c) as (v & Hv & _). congruence. }
  assert (Htruthy : forall (c : DbCall) (v : Value), db w c = Returns v -> truthy v <> true).
  { intros c v H. destruct (Hdb c) as (v' & Hv & Hfalsy). congruence. }
  assert (Hrole : h = CatPutAdmin \/ h = CatDeleteAdmin ->
                  strict_eq_str (get caller "role") "admin" = true).
  { intros H. rewrite (Hadmin H). reflexivity. }
  destruct h; try congruence; try discriminate Hm; injection Hm as <-;
    try pose proof (Hgate _ eq_refl) as Hv;
    try pose proof (Hrole (or_introl eq_refl)) as Hr;
    try pose proof (Hrole (or_intror eq_refl)) as Hr;
    unfold_handler; unfold_monad; try rewrite Hu; try rewrite Hv; cbn [field];
    try rewrite Hr; split_cases;
    try (exfalso; eapply Hthrows; eassumption);
    try (exfalso; eapply Htruthy; eassumption);
    repeat split; reflexivity.
Qed.

Lemma not_found_is_404_witness :
  let w := world_of [] db_null in
  let req := sample_request ∅ None in
  not_found_message CatDeleteAdmin = Some "No cat found"
  /\ user admin_locals = VObj admin_caller
  /\ get admin_caller "role" = VStr "admin"
  /\ forwarded (run CatDeleteAdmin w req admin_locals) = [CustomError "No cat found" 404]
  /\ responses (run CatDeleteAdmin w req admin_locals) = []
  /\ List.length (db_calls (run CatDeleteAdmin w req admin_locals)) = 1%nat.
Proof.
  intros w req.
  split; [reflexivity |]. split; [reflexivity |]. split; [reflexivity |].
  apply (not_found_is_404 CatDeleteAdmin "No cat found" w req admin_locals admin_caller).
  - reflexivity.
  - discriminate.
  - intros t Ht. reflexivity.
  - reflexivity.
  - intros _. reflexivity.
  - intros c. exists VNull. split; reflexivity.
Defined.

(** ** Handlers and the caller *)

(** X6: when [res.locals.user] is [undefined] or [null], a handler that
    reads it makes no database call and sends no response; it answers
    with exactly one forwarded error. *)
Theorem no_caller_no_db (h : Handler) (w : World) (req : Request) (res : Locals) :
  reads_locals h = true ->
  user res = VUndef \/ user res = VNull ->
  db_calls (run h w req res) = []
  /\ responses (run h w req res) = []
  /\ List.length (forwarded (run h w req res)) = 1%nat.
Proof.
  intros Hreads Hu.
  destruct h; try discriminate Hreads; unfold_handler; unfold_monad;
    destruct Hu as [-> | ->]; cbn [truthy negb]; split_cases; repeat split; reflexivity.
Qed.

Lemma no_caller_no_db_witness :
  let res := {| user := VUndef; coords := VNull |} in
  reads_locals UserPutCurrent = true
  /\ db_calls (run UserPutCurrent (world_of [] (db_found sample_caller))
                 (sample_request {["role" := VStr "admin"]} None) res) = []
  /\ forwarded (run UserPutCurrent (world_of [] (db_found sample_caller))
                  (sample_request {["role" := VStr "admin"]} None) res)
     = [CustomError "Cannot read properties of undefined (reading '_id')" 500].
Proof.
  intros res. split; [reflexivity |]. split.
  - apply (no_caller_no_db UserPutCurrent _ _ res eq_refl (or_introl eq_refl)).
  - reflexivity.
Defined.

(** X7: a handler that does not read [res.locals] behaves the same for
    every caller, authenticated or not; among them are [catDelete] and
    [catPut], the owner's delete and update. *)
Theorem caller_is_ignored (h : Handler) (w : World) (req : Request) (res res' : Locals) :
  reads_locals h = false ->
  run h w req res = run h w req res'.
Proof. intros Hreads. destruct h; try discriminate Hreads; reflexivity. Qed.

Lemma caller_is_ignored_witness :
  reads_locals CatDelete = false
  /\ run CatDelete (world_of [] (db_found (VStr "cat"))) (sample_request ∅ None) sample_locals
     = run CatDelete (world_of [] (db_found (VStr "cat"))) (sample_request ∅ None)
         {| user := VUndef; coords := VUndef |}.
Proof.
  split; [reflexivity |].
  apply (caller_is_ignored CatDelete _ _ sample_locals {| user := VUndef; coords := VUndef |}).
  reflexivity.
Defined.

(** X8: [catGetByUser] depends on the request through the validator only:
    two requests on which the validator reports the same get the same
    run, so params, query and body cannot widen the owner filter, which
    is the caller's [_id]. *)
Theorem catGetByUser_scoped_to_caller (w : World) (req req' : Request) (res : Locals)
    (c : DbCall) :
  validationResult w (OfRequest req) = validationResult w (OfRequest req') ->
  run CatGetByUser w req res = run CatGetByUser w req' res
  /\ (In c (db_calls (run CatGetByUser w req res)) ->
      c = {| on := catModel; op := Find (ByOwner (field (user res) "_id")); chain := [] |}).
Proof.
  intros Hv. split.
  - unfold_handler. unfold validate. rewrite Hv. reflexivity.
  - run_cases; simpl; intros Hin; repeat (destruct Hin as [<- | Hin]);
      try contradiction; reflexivity.
Qed.

Lemma catGetByUser_scoped_to_caller_witness :
  let w := world_of [] (db_found (VArr [])) in
  let req := sample_request ∅ None in
  let req' := sample_request {["owner" := VStr "u2"]} None in
  validationResult w (OfRequest req) = validationResult w (OfRequest req')
  /\ run CatGetByUser w req sample_locals = run CatGetByUser w req' sample_locals.
Proof.
  intros w req req'. split; [reflexivity |].
  apply (catGetByUser_scoped_to_caller w req req' sample_locals
           {| on := catModel; op := Find NoFilter; chain := [] |} eq_refl).
Defined.

(** X9: only [userPost] depends on the hashing library: every other
    handler runs the same whatever [genSaltSync], [hashSync] and
    [compareSync] do. *)
Theorem only_userPost_hashes (h : Handler) (w : World) (req : Request) (res : Locals)
    (salt : Z -> string) (hash : Value -> string -> Outcome string)
    (compare : string -> string -> bool) :
  h <> UserPost ->
  run h (with_bcrypt w salt hash compare) req res = run h w req res.
Proof. intros Hne. destruct h; try congruence; reflexivity. Qed.

Lemma only_userPost_hashes_witness :
  UserPutCurrent <> UserPost
  /\ run UserPutCurrent
       (with_bcrypt (world_of [] (db_found sample_caller)) (fun _ => "")
          (fun _ _ => Throws {| message := "no bcrypt"; status := None |}) (fun _ _ => false))
       (sample_request {["password" := VStr "hunter2"]} None) sample_locals
     = run UserPutCurrent (world_of [] (db_found sample_caller))
         (sample_request {["password" := VStr "hunter2"]} None) sample_locals.
Proof.
  assert (Hne : UserPutCurrent <> UserPost) by discriminate.
  split; [exact Hne |].
  apply (only_userPost_hashes UserPutCurrent _ _ _ _ _ _ Hne).
Defined.

(** ** What the creating handlers hand to the database *)

(** X10: the only database call [userPost] ever makes is a [create] on
    the user collection, made after validation has passed and [hashSync]
    has returned; its document carries that hash as password and
    ["user"] as role, and every other field as the body has it. *)
Theorem userPost_creates_only_hashed (w : World) (req : Request) (res : Locals)
    (c : DbCall) :
  In c (db_calls (run UserPost w req res)) ->
  validationResult w (OfRequest req) = []
  /\ exists hash : string,
       hashSync w (get (body req) "password") (genSaltSync w 12) = Returns hash
       /\ c = {| on := userModel; op := Create (VObj (userPost_doc req hash)); chain := [] |}
       /\ userPost_doc req hash !! "password" = Some (VStr hash)
       /\ userPost_doc req hash !! "role" = Some (VStr "user")
       /\ forall k : string,
            k <> "password" -> k <> "role" -> userPost_doc req hash !! k = body req !! k.
Proof.
  run_cases; simpl; intros Hin; repeat (destruct Hin as [<- | Hin]); try contradiction;
    (split; [reflexivity |]); eexists; (split; [reflexivity |]);
    (split; [reflexivity |]); (split; [apply userPost_doc_password |]);
    (split; [apply userPost_doc_role |]);
    intros k Hp Hr; unfold userPost_doc;
    rewrite lookup_insert_ne by congruence; rewrite lookup_insert_ne by congruence;
    reflexivity.
Qed.

Lemma userPost_creates_only_hashed_witness :
  let w := world_of [] db_null in
  let req := sample_request (<["password" := VStr "hunter2"]> {["role" := VStr "admin"]}) None in
  let c := {| on := userModel;
              op := Create (VObj (<["role" := VStr "user"]>
                                    {["password" := VStr "$hunter2"]}));
              chain := [] |} in
  In c (db_calls (run UserPost w req sample_locals))
  /\ validationResult w (OfRequest req) = [].
Proof.
  intros w req c.
  assert (Hin : In c (db_calls (run UserPost w req sample_locals))) by (left; reflexivity).
  split; [exact Hin |].
  exact (proj1 (userPost_creates_only_hashed w req sample_locals c Hin)).
Defined.

(** X11: the only database call [catPost] ever makes is a [create] on
    the cat collection, made after validation has passed, with a file
    attached and a caller present; its document takes [location] from
    the server-side coordinates, [owner] from the caller's [_id] and
    [filename] from the stored upload, and every other field from the
    body. *)
Theorem catPost_creates_only_with_file (w : World) (req : Request) (res : Locals)
    (c : DbCall) :
  In c (db_calls (run CatPost w req res)) ->
  validationResult w (OfRequest req) = []
  /\ user res <> VUndef /\ user res <> VNull
  /\ exists (f : File) (doc : gmap string Value),
       file req = Some f
       /\ c = {| on := catModel; op := Create (VObj doc); chain := [] |}
       /\ doc !! "location" = Some (coords res)
       /\ doc !! "owner" = Some (field (user res) "_id")
       /\ doc !! "filename" = Some (VStr (filename f))
       /\ forall k : string,
            k <> "location" -> k <> "owner" -> k <> "filename" -> doc !! k = body req !! k.
Proof.
  run_cases; simpl; intros Hin; repeat (destruct Hin as [<- | Hin]); try contradiction;
    (split; [reflexivity |]); (split; [discriminate |]); (split; [discriminate |]);
    eexists; eexists; (split; [reflexivity |]); (split; [reflexivity |]);
    match goal with
    | |- context [catPost_doc ?r ?l ?o ?f] =>
        destruct (catPost_doc_server_assigned r l o f) as (Hl & Ho & Hf)
    end;
    (split; [exact Hl |]); (split; [exact Ho |]); (split; [exact Hf |]);
    intros k H1 H2 H3; unfold catPost_doc;
    rewrite !lookup_insert_ne by congruence; reflexivity.
Qed.

Lemma catPost_creates_only_with_file_witness :
  let w := world_of [] (db_found (VStr "created")) in
  let req := sample_request (<["cat_name" := VStr "Tom"]> {["owner" := VStr "u2"]})
               (Some {| filename := "upload-1.jpg" |}) in
  let c := {| on := catModel;
              op := Create (VObj (<["filename" := VStr "upload-1.jpg"]>
                                    (<["owner" := VStr "u1"]>
                                       (<["location" := VArr [VNum 60; VNum 24]]>
                                          {["cat_name" := VStr "Tom"]}))));
              chain := [] |} in
  In c (db_calls (run CatPost w req sample_locals))
  /\ validationResult w (OfRequest req) = [].
Proof.
  intros w req c.
  assert (Hin : In c (db_calls (run CatPost w req sample_locals))) by (left; reflexivity).
  split; [exact Hin |].
  exact (proj1 (catPost_creates_only_with_file w req sample_locals c Hin)).
Defined.

(** ** What the user handlers send back *)



(** X13: the confirmation [userDeleteCurrent] sends is built from the
    session's user, not from the record the database returns; it is sent
    only after the delete has returned a truthy result. *)
Theorem userDeleteCurrent_echoes_session (w : World) (req : Request) (res : Locals)
    (v : Value) :
  In v (responses (run UserDeleteCurrent w req res)) ->
  v = envelope "User deleted"
        (userOutput (field (user res) "_id") (field (user res) "user_name")
           (field (user res) "email"))
  /\ exists deleted : Value,
       db w {| on := userModel;
               op := FindByIdAndDelete (field (user res) "_id") (Some (VObj (body req)));
               chain := [] |} = Returns deleted
       /\ truthy deleted = true.
Proof.
  run_cases; intros Hin; cbn [responses omap list_omap app] in Hin;
    repeat (destruct Hin as [<- | Hin]); try contradiction;
    (split; [reflexivity |]); eexists; split; first [ reflexivity | eassumption ].
Qed.

Lemma userDeleteCurrent_echoes_session_witness :
  let w := world_of [] (db_found (VObj {["user_name" := VStr "stale"]})) in
  let v := envelope "User deleted"
             (userOutput (VStr "u1") (VStr "ann") (VStr "ann@example.org")) in
  In v (responses (run UserDeleteCurrent w (sample_request ∅ None) sample_locals))
  /\ v = envelope "User deleted"
           (userOutput (field (user sample_locals) "_id") (field (user sample_locals) "user_name")
              (field (user sample_locals) "email")).
Proof.
  intros w v.
  assert (Hin : In v (responses (run UserDeleteCurrent w (sample_request ∅ None)
                                   sample_locals)))
    by (left; reflexivity).
  split; [exact Hin |].
  exact (proj1 (userDeleteCurrent_echoes_session w (sample_request ∅ None) sample_locals
                  v Hin)).
Defined.

(** ** Admin update and owner update *)

(** X14: for a caller whose role is ["admin"], [catPutAdmin] makes the
    same database call, sends the same response and forwards the same
    error as [catPut]. *)
Theorem catPutAdmin_as_catPut (w : World) (req : Request) (res : Locals)
    (caller : gmap string Value) :
  user res = VObj caller ->
  get caller "role" = VStr "admin" ->
  db_calls (run CatPutAdmin w req res) = db_calls (run CatPut w req res)
  /\ responses (run CatPutAdmin w req res) = responses (run CatPut w req res)
  /\ forwarded (run CatPutAdmin w req res) = forwarded (run CatPut w req res).
Proof.
  intros Hu Hrole. unfold_handler. unfold_monad. rewrite Hu. cbn [field]. rewrite Hrole.
  cbn [strict_eq_str]. rewrite String.eqb_refl.
  split_cases; repeat split; reflexivity.
Qed.

Lemma catPutAdmin_as_catPut_witness :
  let w := world_of [] (db_found (VObj {["cat_name" := VStr "Tom"]})) in
  let req := sample_request {["owner" := VStr "u2"]} None in
  user admin_locals = VObj admin_caller
  /\ get admin_caller "role" = VStr "admin"
  /\ responses (run CatPutAdmin w req admin_locals)
     = [envelope "Cat updated" (VObj {["cat_name" := VStr "Tom"]})]
  /\ responses (run CatPutAdmin w req admin_locals) = responses (run CatPut w req admin_locals).
Proof.
  intros w req. split; [reflexivity |]. split; [reflexivity |]. split; [reflexivity |].
  exact (proj1 (proj2 (catPutAdmin_as_catPut w req admin_locals admin_caller
                         eq_refl eq_refl))).
Defined.

(** ** A user that does not exist *)

(** X15: [userGet] has no not-found check: when validation passes, it
    sends whatever the projected [findById] yields, [null] included, and
    forwards nothing. *)
Theorem userGet_sends_what_it_finds (w : World) (req : Request) (res : Locals) (v : Value) :
  validationResult w (OfRequest req) = [] ->
  db w {| on := userModel; op := FindById (get (params req) "id");
          chain := [Select "_id user_name email"] |} = Returns v ->
  run UserGet w req res
  = [ Db {| on := userModel; op := FindById (get (params req) "id");
            chain := [Select "_id user_name email"] |};
      Json v ].
Proof.
  intros Hv Hdb. unfold_handler.
  rewrite (validate_passes _ _ Hv), bind_ret, (bind_await_returns _ _ _ _ Hdb).
  reflexivity.
Qed.

Lemma userGet_sends_what_it_finds_witness :
  let w := world_of [] db_null in
  validationResult w (OfRequest (sample_request ∅ None)) = []
  /\ run UserGet w (sample_request ∅ None) sample_locals
     = [ Db {| on := userModel; op := FindById (VStr "c1");
               chain := [Select "_id user_name email"] |};
         Json VNull ].
Proof.
  intros w. split; [reflexivity |].
  exact (userGet_sends_what_it_finds w (sample_request ∅ None) sample_locals VNull
           eq_refl eq_refl).
Defined.

(** ** A failed validation *)




(** ** The corners of the bounding box *)

(** X17: a corner string without a comma leaves the second component
    [undefined], so the corner handed to [rectangleBounds] has [NaN] for
    it: the [lat] of the first corner when [topRight] has no comma, the
    [lng] of the second when [bottomLeft] has none. *)
Theorem corner_without_comma_is_NaN (q : QueryString) :
  (contains "," (topRight q) = false ->
   fst (boundingBoxCorners q) = {| lng := parseInt (Some (topRight q)); lat := None |})
  /\ (contains "," (bottomLeft q) = false ->
      snd (boundingBoxCorners q) = {| lat := parseInt (Some (bottomLeft q)); lng := None |}).
Proof.
  split; intros H; unfold boundingBoxCorners; cbn [fst snd];
    rewrite (split_without_separator _ _ H); reflexivity.
Qed.

Lemma corner_without_comma_is_NaN_witness :
  let q := {| topRight := "10"; bottomLeft := "0,0" |} in
  contains "," (topRight q) = false
  /\ fst (boundingBoxCorners q) = {| lng := Some (Finite 10); lat := None |}.
Proof.
  intros q. split; [reflexivity |].
  exact (proj1 (corner_without_comma_is_NaN q) eq_refl).
Defined.

(** X18: of each corner string only the text up to the second comma is
    read: the first component of [topRight] becomes the [lng] of the first
    corner and its second the [lat], the first component of [bottomLeft]
    becomes the [lat] of the second corner and its second the [lng];
    whatever follows a second comma is ignored. *)
Theorem corners_from_first_two_components (a b c d more more' : string) :
  contains "," a = false -> contains "," b = false ->
  contains "," c = false -> contains "," d = false ->
  boundingBoxCorners {| topRight := a +:+ "," +:+ b +:+ "," +:+ more;
                        bottomLeft := c +:+ "," +:+ d +:+ "," +:+ more' |}
  = ({| lng := parseInt (Some a); lat := parseInt (Some b) |},
     {| lat := parseInt (Some c); lng := parseInt (Some d) |})
  /\ boundingBoxCorners {| topRight := a +:+ "," +:+ b; bottomLeft := c +:+ "," +:+ d |}
     = ({| lng := parseInt (Some a); lat := parseInt (Some b) |},
        {| lat := parseInt (Some c); lng := parseInt (Some d) |}).
Proof.
  intros Ha Hb Hc Hd.
  change ("," +:+ more) with (String "," more). change ("," +:+ more') with (String "," more').
  change ("," +:+ b) with (String "," b). change ("," +:+ d) with (String "," d).
  change ("," +:+ b +:+ String "," more) with (String "," (b +:+ String "," more)).
  change ("," +:+ d +:+ String "," more') with (String "," (d +:+ String "," more')).
  unfold boundingBoxCorners. cbn [topRight bottomLeft].
  rewrite !(split_at_separator _ a) by exact Ha.
  rewrite !(split_at_separator _ c) by exact Hc.
  rewrite (split_at_separator _ b _ Hb), (split_at_separator _ d _ Hd).
  rewrite (split_without_separator _ b Hb), (split_without_separator _ d Hd).
  split; reflexivity.
Qed.

Lemma corners_from_first_two_components_witness :
  boundingBoxCorners {| topRight := "20,10,7"; bottomLeft := "1,2,junk" |}
  = ({| lng := Some (Finite 20); lat := Some (Finite 10) |},
     {| lat := Some (Finite 1); lng := Some (Finite 2) |}).
Proof.
  exact (proj1 (corners_from_first_two_components "20" "10" "1" "2" "7" "junk"
                  eq_refl eq_refl eq_refl eq_refl)).
Defined.

(** ** Where a response comes from *)

(** X19: a handler other than [checkToken] sends a response only after
    its database call has returned; the cat handlers, [userGet] and
    [userListGet] send the returned record itself, bare or as the data of
    an envelope, adding and removing nothing. *)
Theorem responses_follow_the_database (h : Handler) (w : World) (req : Request)
    (res : Locals) (v : Value) :
  h <> CheckToken ->
  In v (responses (run h w req res)) ->
  exists (c : DbCall) (record : Value),
    In c (db_calls (run h w req res))
    /\ db w c = Returns record
    /\ (passes_record_on h = true ->
        v = record \/ exists m : string, v = envelope m record).
Proof.
  intros Hne.
  destruct h; try congruence; run_cases; intros Hin;
    cbn [responses db_calls omap list_omap app] in Hin |- *;
    repeat (destruct Hin as [<- | Hin]); try contradiction;
    eexists; eexists; (split; [left; reflexivity |]); (split; [eassumption |]);
    intros Hpass; try discriminate Hpass;
    first [ left; reflexivity | right; eexists; reflexivity ].
Qed.

Lemma responses_follow_the_database_witness :
  let w := world_of [] (db_found (VObj {["cat_name" := VStr "Tom"]})) in
  let req := sample_request ∅ None in
  let v := envelope "Cat deleted" (VObj {["cat_name" := VStr "Tom"]}) in
  CatDelete <> CheckToken
  /\ In v (responses (run CatDelete w req sample_locals))
  /\ exists (c : DbCall) (record : Value),
       In c (db_calls (run CatDelete w req sample_locals))
       /\ db w c = Returns record
       /\ (passes_record_on CatDelete = true ->
           v = record \/ exists m : string, v = envelope m record).
Proof.
  intros w req v.
  assert (Hne : CatDelete <> CheckToken) by discriminate.
  assert (Hin : In v (responses (run CatDelete w req sample_locals))) by (left; reflexivity).
  split; [exact Hne |]. split; [exact Hin |].
  exact (responses_follow_the_database CatDelete w req sample_locals v Hne Hin).
Defined.
